(** * charm-sysconfig: the helper library [lib_sysconfig.py]

    A shallow embedding of [src/lib/lib_sysconfig.py] and the properties of
    its change-detection engine ([BootResourceState]), its configuration
    reconciler ([SysConfigHelper]) and its two text transforms
    ([parse_config_flags], [_replace_uuids_with_labels]).

    Conventions of the embedding:
    - a Python [str] and the bytes of a file are a [string] (a list of 8-bit
      characters);
    - a call that may raise returns a [result]; the exception classes the
      library can meet are the constructors of [exn];
    - the unit's key-value store ([unitdata.kv()]) is one [gmap] from key
      strings to JSON values, shared by the timestamps, the checksums and
      the acknowledgment time, exactly as the keys are formatted in the
      source;
    - the file system is a [gmap] from paths to file contents;
    - a [datetime] is a number of microseconds since the Unix epoch, and
      the epoch floats of the store carry the same unit. *)

From stdpp Require Import gmap strings list fin_maps sets.
From Stdlib Require Import ZArith Ascii String Bool Lia.

Open Scope string_scope.

(** ** Exceptions *)

Inductive exn : Set :=
| FileNotFoundError   (* open() of a missing file *)
| TypeError           (* datetime.fromtimestamp of a non-number *)
| OverflowError       (* a datetime outside datetime.min .. datetime.max *)
| ConfigParserError.  (* configparser.Error while reading a file *)

Inductive result (A : Type) : Type :=
| Ok (a : A)
| Raise (e : exn).
Arguments Ok {A} a.
Arguments Raise {A} e.

Definition bind {A B : Type} (r : result A) (k : A -> result B) : result B :=
  match r with
  | Ok a => k a
  | Raise e => Raise e
  end.

Notation "x <- r ;; k" := (bind r (fun x => k))
  (at level 100, r at next level, right associativity).

(** A list comprehension [[n for n in names if p(n)]] whose test may raise:
    the names are tested from left to right and the first exception escapes. *)
Fixpoint filterM {A : Type} (p : A -> result bool) (l : list A)
  : result (list A) :=
  match l with
  | [] => Ok []
  | x :: xs =>
      b <- p x ;;
      r <- filterM p xs ;;
      Ok (if b then x :: r else r)
  end.

(** ** Strings *)

Module Str.

(** [sub in s] *)
Fixpoint contains (sub s : string) : bool :=
  prefix sub s ||
  match s with
  | EmptyString => false
  | String _ t => contains sub t
  end.

Definition eqb_char (a b : ascii) : bool := Ascii.eqb a b.

(** The double quote character, and a text between double quotes. *)
Definition dquote : ascii := "034"%char.
Definition quoted (s : string) : string :=
  String dquote (s ++ String dquote EmptyString).

(** The ASCII characters for which [str.isspace] holds. *)
Definition isspace (c : ascii) : bool :=
  let n := nat_of_ascii c in
  ((9 <=? n)%nat && (n <=? 13)%nat) || ((28 <=? n)%nat && (n <=? 32)%nat).

Fixpoint lstrip (s : string) : string :=
  match s with
  | String c t => if isspace c then lstrip t else s
  | EmptyString => EmptyString
  end.

Fixpoint rstrip (s : string) : string :=
  match s with
  | EmptyString => EmptyString
  | String c t =>
      match rstrip t with
      | EmptyString => if isspace c then EmptyString else String c EmptyString
      | t' => String c t'
      end
  end.

(** [s.strip()] *)
Definition strip (s : string) : string := rstrip (lstrip s).

(** [s.split(sep, 1)] for a one-character separator that occurs in [s]:
    the text before the first [sep] and the text after it.  Without an
    occurrence the whole string is the first component. *)
Fixpoint split_once (sep : ascii) (s : string) : string * string :=
  match s with
  | EmptyString => (EmptyString, EmptyString)
  | String c t =>
      if eqb_char c sep then (EmptyString, t)
      else let (a, b) := split_once sep t in (String c a, b)
  end.

Fixpoint count_char (x : ascii) (s : string) : nat :=
  match s with
  | EmptyString => O
  | String c t => (if eqb_char c x then 1 else 0) + count_char x t
  end.

(** [s.replace(old, new)].  The scan goes from left to right; where [old]
    starts, [new] is emitted and the scan resumes after the occurrence
    ([skip] counts the characters of the occurrence still to pass).  With
    an empty [old] Python puts [new] before every character and at the
    end. *)
Fixpoint replace_from (old new : string) (skip : nat) (s : string) : string :=
  match s with
  | EmptyString => EmptyString
  | String c t =>
      match skip with
      | S k => replace_from old new k t
      | O =>
          if prefix old s
          then new ++ replace_from old new (Nat.pred (String.length old)) t
          else String c (replace_from old new O t)
      end
  end.

Fixpoint intersperse (new : string) (s : string) : string :=
  match s with
  | EmptyString => new
  | String c t => new ++ String c (intersperse new t)
  end.

Definition replace (old new s : string) : string :=
  match old with
  | EmptyString => intersperse new s
  | _ => replace_from old new O s
  end.

End Str.

(** ** [parse_config_flags] *)

(** [re.split(pattern, config_flags)], where the pattern is a comma
    followed by a look-ahead: any number of groups made of non-quote
    characters, a double quote, non-quote characters and a double quote,
    then non-quote characters up to the end of the string.  The look-ahead
    pairs the double quotes off, so the string is cut at exactly the commas
    that are followed, up to its end, by an even number of double quotes.
    [cur] is the piece being read. *)
Fixpoint re_split_commas (cur : string) (s : string) : list string :=
  match s with
  | EmptyString => [cur]
  | String c t =>
      if Str.eqb_char c ","%char && Nat.even (Str.count_char Str.dquote t)
      then cur :: re_split_commas EmptyString t
      else re_split_commas (cur ++ String c EmptyString) t
  end.

(** A Python [dict] with string keys, in insertion order: assigning to a
    key that is present replaces its value in place. *)
Definition pydict (V : Type) : Type := list (string * V).

Fixpoint dict_set {V : Type} (k : string) (v : V) (d : pydict V) : pydict V :=
  match d with
  | [] => [(k, v)]
  | (k', v') :: rest =>
      if String.eqb k k' then (k, v) :: rest else (k', v') :: dict_set k v rest
  end.

Fixpoint dict_get {V : Type} (k : string) (d : pydict V) : option V :=
  match d with
  | [] => None
  | (k', v') :: rest => if String.eqb k k' then Some v' else dict_get k rest
  end.

(** The inner [while] loop: the pieces that follow and carry no [=] are
    glued back onto the value, each after a comma, up to the first piece
    that has one. *)
Fixpoint rejoin_value (value : string) (following : list string) : string :=
  match following with
  | [] => value
  | p :: rest =>
      if Str.contains "=" p then value
      else rejoin_value (value ++ "," ++ p) rest
  end.

(** The [for] loop over [enumerate(key_value_pairs)]. *)
Fixpoint parse_pairs (key_value_pairs : list string) (parsed : pydict string)
  : pydict string :=
  match key_value_pairs with
  | [] => parsed
  | kv :: following =>
      if Str.contains "=" kv
      then
        let (k, v) := Str.split_once "="%char kv in
        let key := Str.strip k in
        let value := rejoin_value (Str.strip v) following in
        parse_pairs following (dict_set key value parsed)
      else parse_pairs following parsed
  end.

Definition parse_config_flags (config_flags : string) : pydict string :=
  parse_pairs (re_split_commas EmptyString config_flags) [].

(** ** [_replace_uuids_with_labels] *)

(** [blkid_mapping.items()] is walked in insertion order; every entry
    rewrites the text produced by the entries before it. *)
Fixpoint _replace_uuids_with_labels (content : string)
    (blkid_mapping : pydict string) : string :=
  match blkid_mapping with
  | [] => content
  | (uuid, label) :: rest =>
      _replace_uuids_with_labels
        (Str.replace ("root=UUID=" ++ uuid) ("root=LABEL=" ++ label) content)
        rest
  end.

(** ** [hashlib.sha256]

    The digest of FIPS 180-4 on 32-bit words kept in [Z], every addition
    reduced modulo 2^32, and [hexdigest] as sixty-four lower-case
    hexadecimal digits. *)

Module SHA256.
Open Scope list_scope.
Open Scope Z_scope.

Definition wrap (x : Z) : Z := x mod 2 ^ 32.
Definition add32 (x y : Z) : Z := wrap (x + y).
Definition rotr (n x : Z) : Z :=
  Z.lor (Z.shiftr x n) (wrap (Z.shiftl x (32 - n))).
Definition not32 (x : Z) : Z := Z.lxor x 0xffffffff.

Definition Ch (x y z : Z) : Z := Z.lxor (Z.land x y) (Z.land (not32 x) z).
Definition Maj (x y z : Z) : Z :=
  Z.lxor (Z.lxor (Z.land x y) (Z.land x z)) (Z.land y z).
Definition Sigma0 (x : Z) : Z :=
  Z.lxor (Z.lxor (rotr 2 x) (rotr 13 x)) (rotr 22 x).
Definition Sigma1 (x : Z) : Z :=
  Z.lxor (Z.lxor (rotr 6 x) (rotr 11 x)) (rotr 25 x).
Definition sigma0 (x : Z) : Z :=
  Z.lxor (Z.lxor (rotr 7 x) (rotr 18 x)) (Z.shiftr x 3).
Definition sigma1 (x : Z) : Z :=
  Z.lxor (Z.lxor (rotr 17 x) (rotr 19 x)) (Z.shiftr x 10).

(** The first sixty-four primes. *)
Definition primes : list Z :=
  [2; 3; 5; 7; 11; 13; 17; 19; 23; 29; 31; 37; 41; 43; 47; 53;
   59; 61; 67; 71; 73; 79; 83; 89; 97; 101; 103; 107; 109; 113; 127; 131;
   137; 139; 149; 151; 157; 163; 167; 173; 179; 181; 191; 193; 197; 199;
   211; 223; 227; 229; 233; 239; 241; 251; 257; 263; 269; 271; 277; 281;
   283; 293; 307; 311].

(** The integer cube root of [n], one bit at a time from bit [bits - 1]
    down. *)
Fixpoint cube_root (bits : nat) (n r : Z) : Z :=
  match bits with
  | O => r
  | S b =>
      let r' := r + 2 ^ Z.of_nat b in
      cube_root b n (if r' * r' * r' <=? n then r' else r)
  end.

(** The round constants: the first thirty-two bits of the fractional parts
    of the cube roots of the primes. *)
Definition K : list Z :=
  Eval vm_compute in map (fun p => wrap (cube_root 36 (p * 2 ^ 96) 0)) primes.

(** The eight working variables, which are also the hash value. *)
Record regs : Set := Regs { ra : Z; rb : Z; rc : Z; rd : Z;
                            re : Z; rf : Z; rg : Z; rh : Z }.

(** The initial hash value: the first thirty-two bits of the fractional
    parts of the square roots of the first eight primes. *)
Definition frac_sqrt (p : Z) : Z := wrap (Z.sqrt (p * 2 ^ 64)).

Definition H0 : regs :=
  Eval vm_compute in
    Regs (frac_sqrt 2) (frac_sqrt 3) (frac_sqrt 5) (frac_sqrt 7)
         (frac_sqrt 11) (frac_sqrt 13) (frac_sqrt 17) (frac_sqrt 19).

(** Message padding: the bit 1, zeros up to 56 modulo 64 bytes, and the
    length in bits as a 64-bit big-endian number. *)
Definition be_bytes (n : nat) (x : Z) : list Z :=
  map (fun i => Z.land (Z.shiftr x (8 * Z.of_nat i)) 0xff) (rev (seq 0 n)).

Definition pad (msg : list Z) : list Z :=
  let len := Z.of_nat (List.length msg) in
  let zeros := Z.to_nat ((55 - len) mod 64) in
  msg ++ [0x80] ++ repeat 0 zeros ++ be_bytes 8 (8 * len).

Fixpoint be_words (fuel : nat) (bytes : list Z) : list Z :=
  match fuel, bytes with
  | S f, b0 :: b1 :: b2 :: b3 :: rest =>
      (Z.shiftl b0 24 + Z.shiftl b1 16 + Z.shiftl b2 8 + b3)
        :: be_words f rest
  | _, _ => []
  end.

(** The words 16 to 63 of the message schedule; [win] holds the sixteen
    words before the one computed. *)
Fixpoint extend (n : nat) (win : list Z) : list Z :=
  match n with
  | O => []
  | S k =>
      let w := add32 (add32 (sigma1 (nth 14 win 0)) (nth 9 win 0))
                     (add32 (sigma0 (nth 1 win 0)) (nth 0 win 0)) in
      w :: extend k (tl win ++ [w])
  end.

Definition round (s : regs) (kw : Z * Z) : regs :=
  let t1 := add32 (add32 (add32 (rh s) (Sigma1 (re s)))
                         (add32 (Ch (re s) (rf s) (rg s)) (fst kw)))
                  (snd kw) in
  let t2 := add32 (Sigma0 (ra s)) (Maj (ra s) (rb s) (rc s)) in
  Regs (add32 t1 t2) (ra s) (rb s) (rc s) (add32 (rd s) t1) (re s) (rf s) (rg s).

Definition compress (h : regs) (block : list Z) : regs :=
  let w16 := be_words 16 block in
  let s := fold_left round (combine K (w16 ++ extend 48 w16)) h in
  Regs (add32 (ra h) (ra s)) (add32 (rb h) (rb s))
       (add32 (rc h) (rc s)) (add32 (rd h) (rd s))
       (add32 (re h) (re s)) (add32 (rf h) (rf s))
       (add32 (rg h) (rg s)) (add32 (rh h) (rh s)).

Fixpoint blocks (fuel : nat) (bytes : list Z) : list (list Z) :=
  match fuel, bytes with
  | S f, _ :: _ => firstn 64 bytes :: blocks f (skipn 64 bytes)
  | _, _ => []
  end.

Definition digest (msg : list Z) : regs :=
  let p := pad msg in
  fold_left compress (blocks (List.length p) p) H0.

Definition hexdigit (x : Z) : ascii :=
  ascii_of_nat (Z.to_nat (if x <? 10 then 48 + x else 87 + x)).

Definition hex8 (w : Z) (tail : string) : string :=
  String (hexdigit (Z.land (Z.shiftr w 28) 15))
 (String (hexdigit (Z.land (Z.shiftr w 24) 15))
 (String (hexdigit (Z.land (Z.shiftr w 20) 15))
 (String (hexdigit (Z.land (Z.shiftr w 16) 15))
 (String (hexdigit (Z.land (Z.shiftr w 12) 15))
 (String (hexdigit (Z.land (Z.shiftr w 8) 15))
 (String (hexdigit (Z.land (Z.shiftr w 4) 15))
 (String (hexdigit (Z.land w 15)) tail))))))).

Definition bytes_of_string (s : string) : list Z :=
  map (fun c => Z.of_nat (nat_of_ascii c)) (list_ascii_of_string s).

(** [hashlib.sha256(data).hexdigest()] *)
Definition hexdigest (data : string) : string :=
  let h := digest (bytes_of_string data) in
  hex8 (ra h) (hex8 (rb h) (hex8 (rc h) (hex8 (rd h)
 (hex8 (re h) (hex8 (rf h) (hex8 (rg h) (hex8 (rh h) EmptyString))))))).

End SHA256.

(** ** The world the library acts on *)

(** A JSON value of the unit's key-value store: the library stores epoch
    floats (in microseconds here) and hexadecimal digests. *)
Inductive value : Set :=
| VFloat (t : Z)
| VStr (s : string).

Global Instance value_eq_dec : EqDecision value.
Proof. solve_decision. Defined.

(** Python truth of the result of [db.get]: [None], [0.0] and the empty
    string are false. *)
Definition truthy (v : option value) : bool :=
  match v with
  | None => false
  | Some (VFloat t) => negb (t =? 0)%Z
  | Some (VStr s) => negb (String.eqb s EmptyString)
  end.

(** What the library calls on the operating system, in call order. *)
Inductive action : Set :=
| RenderFile (source target content : string)  (* render(...) writes target *)
| AptUpdate
| AptInstall (package : string)
| ServiceRestart (service : string)
| SystemctlMask (service : string)
| SystemctlUnmask (service : string)
| RunUpdateGrub.                                (* /usr/sbin/update-grub *)

Record world : Type := World {
  db : gmap string value;        (* unitdata.kv() *)
  files : gmap string string;    (* regular files, by path *)
  calls : list action            (* external calls made so far *)
}.

(** What a call reads from the machine: the clock ([datetime.now]), the
    first field of /proc/uptime, [os.uname().release] and
    [host.is_container()]. *)
Record machine : Set := Machine {
  clock : Z;
  uptime : Z;
  kernel_release : string;
  is_container : bool
}.

Definition db_set (k : string) (v : value) (w : world) : world :=
  World (<[k := v]> (db w)) (files w) (calls w).

Definition call (a : action) (w : world) : world :=
  World (db w) (files w) (calls w ++ [a]).

(** ** Dates *)

Definition datetime_min : Z := (-62135596800000000)%Z.  (* 0001-01-01 *)
Definition datetime_max : Z := 253402300799999999%Z.     (* 9999-12-31 *)

(** Python has no [datetime] outside [datetime.min .. datetime.max]: the
    arithmetic and the conversions that would leave the range raise. *)
Definition mk_datetime (t : Z) : result Z :=
  if ((datetime_min <=? t) && (t <=? datetime_max))%Z
  then Ok t else Raise OverflowError.

(** [datetime.fromtimestamp(v, tz=timezone.utc)] *)
Definition fromtimestamp (v : value) : result Z :=
  match v with
  | VFloat t => mk_datetime t
  | VStr _ => Raise TypeError
  end.

Definition boot_time (m : machine) : result Z :=
  mk_datetime (clock m - uptime m).

Definition clear_notification_time (w : world) : result (option Z) :=
  let clear_notification_timestamp := db w !! "clear-notification-timestamp" in
  if negb (truthy clear_notification_timestamp) then Ok None
  else match clear_notification_timestamp with
       | Some v => t <- fromtimestamp v ;; Ok (Some t)
       | None => Ok None
       end.

Definition clear_notification (m : machine) (w : world) : world :=
  db_set "clear-notification-timestamp" (VFloat (clock m)) w.

(** ** [BootResourceState] *)

Definition KERNEL : string := "kernel".
Definition GRUB_CONF : string := "/etc/default/grub.d/90-sysconfig.cfg".
Definition SYSTEMD_SYSTEM : string := "/etc/systemd/system.conf".
Definition CPUFREQUTILS : string := "/etc/default/cpufrequtils".
Definition IRQBALANCE_CONF : string := "/etc/default/irqbalance".
Definition SYSTEMD_RESOLVED : string := "/etc/systemd/resolved.conf".
Definition SYSCTL_CONF : string := "/etc/sysctl.d/90-charm-sysconfig.conf".

(** The resources of the charm (lines 28-34 of the module). *)
Definition managed_resources : list string :=
  [CPUFREQUTILS; GRUB_CONF; SYSTEMD_SYSTEM; SYSTEMD_RESOLVED; SYSCTL_CONF;
   KERNEL; IRQBALANCE_CONF].

Definition key_for (resource_name : string) : string :=
  "sysconfig.boot_resource." ++ resource_name.

Definition sha256sum_key (resource_name : string) : string :=
  key_for resource_name ++ ".sha256sum".

Definition calculate_resource_sha256sum (w : world) (resource_name : string)
  : result string :=
  match files w !! resource_name with
  | Some content => Ok (SHA256.hexdigest content)
  | None => Raise FileNotFoundError
  end.

(** [os.path.exists] *)
Definition path_exists (w : world) (path : string) : bool :=
  bool_decide (is_Some (files w !! path)).

Fixpoint update_resource_checksums (w : world) (resources : list string)
  : result world :=
  match resources with
  | [] => Ok w
  | resource :: rest =>
      if negb (path_exists w resource)
      then update_resource_checksums w rest
      else
        sum <- calculate_resource_sha256sum w resource ;;
        update_resource_checksums
          (db_set (sha256sum_key resource) (VStr sum) w) rest
  end.

Definition set_resource (m : machine) (w : world) (resource_name : string)
  : world :=
  db_set (key_for resource_name) (VFloat (clock m)) w.

Definition get_resource_sha256sum (w : world) (resource_name : string)
  : option value :=
  db w !! sha256sum_key resource_name.

Definition get_resource_changed_timestamp (w : world) (resource_name : string)
  : result Z :=
  match db w !! key_for resource_name with
  | Some tfloat => fromtimestamp tfloat
  | None => Ok datetime_min
  end.

Definition checksum_changed (w : world) (resource_name : string)
  : result bool :=
  if negb (truthy (get_resource_sha256sum w resource_name)) then Ok true
  else
    new_sum <- calculate_resource_sha256sum w resource_name ;;
    if bool_decide (get_resource_sha256sum w resource_name
                    <> Some (VStr new_sum))
    then Ok true
    else Ok false.

(** Lines 269-274: the time up to which changes count as acknowledged. *)
Definition acknowledged_ts (m : machine) (w : world) : result Z :=
  boot_ts <- boot_time m ;;
  clear_notification_ts <- clear_notification_time w ;;
  match clear_notification_ts with
  | Some c => Ok (Z.max boot_ts c)
  | None => Ok boot_ts
  end.

(** Lines 276-280: the test of the first comprehension. *)
Definition changed_after (w : world) (ack : Z) (name : string) : result bool :=
  t <- get_resource_changed_timestamp w name ;;
  Ok (ack <? t)%Z.

Definition resources_changed_since_boot (m : machine) (w : world)
    (resource_names : list string) : result (world * list string) :=
  ack <- acknowledged_ts m w ;;
  time_changed <- filterM (changed_after w ack) resource_names ;;
  csum_changed <- filterM (checksum_changed w) resource_names ;;
  let a : gset string := list_to_set time_changed in
  let b : gset string := list_to_set csum_changed in
  let c := b ∖ a in
  let d := b ∖ c in
  w' <- update_resource_checksums w (elements c) ;;
  let changed := a ∩ d in
  Ok (w', elements changed).

(** ** [SysConfigHelper]

    The methods act on the world through [render], [apt_update],
    [apt_install], [host.service_restart] and [subprocess]; each such call
    is entered in [calls].  [hookenv.log] and [hookenv.status_set] are left
    out. *)

(** The options of [hookenv.config()] that the modelled methods read. *)
Record charm_config : Set := CharmConfig {
  reservation : string;
  cpu_range : string;
  cfg_isolcpus : string;
  hugepages : string;
  hugepagesz : string;
  default_hugepagesz : string;
  raid_autodetection : string;
  enable_pti : string;
  enable_iommu : bool;
  enable_tsx : bool;
  cfg_cpu_affinity_range : string;
  cfg_grub_config_flags : string;
  cfg_systemd_config_flags : string;
  cfg_config_flags : string;          (* deprecated config-flags *)
  kernel_version : string;
  update_grub : bool;
  governor : string;
  irqbalance_banned_cpus : string
}.

(** A value of a template context. *)
Inductive ctxval : Type :=
| CStr (s : string)
| CTrue
| CFlags (flags : pydict string).

Definition nonempty (s : string) : bool := negb (String.eqb s EmptyString).

Definition GRUB_CONF_TMPL : string := "grub.j2".
Definition SYSTEMD_SYSTEM_TMPL : string := "etc.systemd.system.conf.j2".
Definition CPUFREQUTILS_TMPL : string := "cpufrequtils.j2".
Definition IRQBALANCE_CONF_TMPL : string := "irqbalance.j2".

Definition GRUB_DEFAULT (version : string) : string :=
  "Advanced options for Ubuntu>Ubuntu, with Linux " ++ version.

(** A parsed INI file as [ConfigParser] compares it: sections of options,
    in no order. *)
Abbreviation ini := (gmap string (gmap string string)).

Section Helper.

(** The collaborators that are not part of the library: the Jinja
    templates behind [charmhelpers.core.templating.render], the parser of
    the deprecated option ([config_flags_parser] of charmhelpers) and
    [ConfigParser.read_string]. *)
Variable render_template : string -> pydict ctxval -> string.
Variable config_flags_parser : string -> pydict string.
Variable read_string : string -> result ini.

Variable m : machine.
Variable cfg : charm_config.

Definition isolcpus : string :=
  if String.eqb (cfg_isolcpus cfg) EmptyString
     && String.eqb (reservation cfg) "isolcpus"
     && nonempty (cpu_range cfg)
  then cpu_range cfg else cfg_isolcpus cfg.

Definition cpu_affinity_range : string :=
  if String.eqb (cfg_cpu_affinity_range cfg) EmptyString
     && String.eqb (reservation cfg) "affinity"
     && nonempty (cpu_range cfg)
  then cpu_range cfg else cfg_cpu_affinity_range cfg.

Definition grub_config_flags : pydict string :=
  parse_config_flags (cfg_grub_config_flags cfg).

Definition systemd_config_flags : pydict string :=
  parse_config_flags (cfg_systemd_config_flags cfg).

Definition config_flags : pydict string :=
  if nonempty (cfg_config_flags cfg)
  then config_flags_parser (cfg_config_flags cfg) else [].

(** [d.get(k, default)] on the deprecated flags, whose default is the
    empty string. *)
Definition legacy_flags (k : string) : string :=
  match dict_get k config_flags with
  | Some v => v
  | None => EmptyString
  end.

(** [if val: context[key] = val] *)
Definition set_if (key val : string) (context : pydict ctxval)
  : pydict ctxval :=
  if nonempty val then dict_set key (CStr val) context else context.

Definition _render_resource (source target : string)
    (context : pydict ctxval) (w : world) : world :=
  let content := render_template source context in
  World (db w) (<[target := content]> (files w))
        (calls w ++ [RenderFile source target content]).

Definition _render_boot_resource (source target : string)
    (context : pydict ctxval) (w : world) : world :=
  set_resource m (_render_resource source target context w) target.

Definition _is_kernel_already_running : bool :=
  String.eqb (kernel_version cfg) (kernel_release m).

Definition _update_grub (w : world) : world :=
  if update_grub cfg && negb (is_container m)
  then call RunUpdateGrub w else w.

Definition _assemble_grub_context : pydict ctxval :=
  let context := set_if "isolcpus" isolcpus [] in
  let context := set_if "hugepages" (hugepages cfg) context in
  let context := set_if "hugepagesz" (hugepagesz cfg) context in
  let context := set_if "default_hugepagesz" (default_hugepagesz cfg) context in
  let context := set_if "raid" (raid_autodetection cfg) context in
  let context :=
    if String.eqb (enable_pti cfg) "on" || String.eqb (enable_pti cfg) "off"
    then dict_set "enable_pti" (CStr (enable_pti cfg)) context
    else context in
  let context :=
    if enable_iommu cfg then dict_set "iommu" CTrue context else context in
  let context :=
    if enable_tsx cfg then dict_set "tsx" CTrue context else context in
  let context :=
    match grub_config_flags with
    | _ :: _ => dict_set "grub_config_flags" (CFlags grub_config_flags) context
    | [] => dict_set "grub_config_flags"
              (CFlags (parse_config_flags (legacy_flags "grub"))) context
    end in
  if nonempty (kernel_version cfg) && negb _is_kernel_already_running
  then dict_set "grub_default" (CStr (GRUB_DEFAULT (kernel_version cfg))) context
  else context.

Definition update_grub_file (w : world) : world :=
  let context := _assemble_grub_context in
  _update_grub (_render_boot_resource GRUB_CONF_TMPL GRUB_CONF context w).

Definition _assemble_systemd_context : pydict ctxval :=
  let context := set_if "cpu_affinity_range" cpu_affinity_range [] in
  match systemd_config_flags with
  | _ :: _ =>
      dict_set "systemd_config_flags" (CFlags systemd_config_flags) context
  | [] =>
      dict_set "systemd_config_flags"
        (CFlags (parse_config_flags (legacy_flags "systemd"))) context
  end.

(** [existing_config.read(path)] skips a file that does not exist. *)
Definition read_file (w : world) (path : string) : result ini :=
  match files w !! path with
  | Some text => read_string text
  | None => Ok ∅
  end.

Definition _systemd_update_available (context : pydict ctxval) (w : world)
  : result bool :=
  let render_output := render_template SYSTEMD_SYSTEM_TMPL context in
  existing_config <- read_file w SYSTEMD_SYSTEM ;;
  new_config <- read_string render_output ;;
  Ok (bool_decide (existing_config <> new_config)).

Definition update_systemd_system_file (w : world) : result world :=
  let context := _assemble_systemd_context in
  available <- _systemd_update_available context w ;;
  if (available : bool)
  then Ok (_render_boot_resource SYSTEMD_SYSTEM_TMPL SYSTEMD_SYSTEM context w)
  else Ok w.

Definition install_configured_kernel (w : world) : world :=
  let configured := kernel_version cfg in
  if negb (nonempty configured) then w
  else
    let w := call AptUpdate w in
    let w := call (AptInstall ("linux-modules-extra-" ++ configured)) w in
    if _is_kernel_already_running then w
    else
      let w := call (AptInstall ("linux-image-" ++ configured)) w in
      set_resource m w KERNEL.

Definition update_cpufreq (w : world) : world :=
  let g := governor cfg in
  if negb (String.eqb g "" || String.eqb g "performance"
           || String.eqb g "powersave")
  then w
  else
    let w := _render_boot_resource CPUFREQUTILS_TMPL CPUFREQUTILS
               [("governor", CStr g)] w in
    let w :=
      if negb (is_container m)
      then if nonempty g then call (SystemctlMask "ondemand") w
           else call (SystemctlUnmask "ondemand") w
      else w in
    call (ServiceRestart "cpufrequtils") w.

Definition update_irqbalance (w : world) : world :=
  let context :=
    set_if "irqbalance_banned_cpus" (irqbalance_banned_cpus cfg) [] in
  let w := _render_boot_resource IRQBALANCE_CONF_TMPL IRQBALANCE_CONF context w in
  call (ServiceRestart "irqbalance") w.

End Helper.

(** ** More of [SysConfigHelper]: validation and removal *)

(** [is_config_valid]: every checked option is tested, and the answer is
    [True] when none is outside its list.  [resolved_cache_mode] is the
    option resolved-cache-mode, which no other modelled method reads. *)
Definition is_config_valid (cfg : charm_config) (resolved_cache_mode : string)
  : bool :=
  forallb
    (fun check : string * list string =>
       existsb (String.eqb (fst check)) (snd check))
    [(reservation cfg, ["off"; "isolcpus"; "affinity"]);
     (raid_autodetection cfg, [EmptyString; "noautodetect"; "partitionable"]);
     (governor cfg, [EmptyString; "powersave"; "performance"]);
     (resolved_cache_mode, [EmptyString; "yes"; "no"; "no-negative"])].

(** [os.remove(path)] of a file that exists. *)
Definition remove_file (path : string) (w : world) : world :=
  World (db w) (delete path (files w)) (calls w).

Definition remove_grub_configuration (m : machine) (cfg : charm_config)
    (w : world) : world :=
  if negb (path_exists w GRUB_CONF) then w
  else
    let w := remove_file GRUB_CONF w in
    let w := _update_grub m cfg w in
    set_resource m w GRUB_CONF.

Definition remove_systemd_configuration
    (render_template : string -> pydict ctxval -> string)
    (m : machine) (w : world) : world :=
  _render_boot_resource render_template m SYSTEMD_SYSTEM_TMPL SYSTEMD_SYSTEM [] w.

Definition remove_cpufreq_configuration
    (render_template : string -> pydict ctxval -> string)
    (m : machine) (w : world) : world :=
  let w :=
    if negb (is_container m) then call (SystemctlUnmask "ondemand") w else w in
  let w :=
    _render_boot_resource render_template m CPUFREQUTILS_TMPL CPUFREQUTILS [] w in
  call (ServiceRestart "cpufrequtils") w.

Definition remove_irqbalance_configuration
    (render_template : string -> pydict ctxval -> string)
    (m : machine) (w : world) : world :=
  let w :=
    _render_boot_resource render_template m IRQBALANCE_CONF_TMPL
      IRQBALANCE_CONF [] w in
  call (ServiceRestart "irqbalance") w.

(** [check_grub_reboot].  [check_update_grub] runs grub-mkconfig and
    compares files through [subprocess] and [filecmp]; it is taken as
    given, with the world it leaves and its pair of answer and message. *)
Definition check_grub_reboot
    (check_update_grub : world -> result (world * (bool * string)))
    (w : world) : result (world * bool) :=
  clear_notification_ts <- clear_notification_time w ;;
  grub_changed_ts <- get_resource_changed_timestamp w GRUB_CONF ;;
  r <- check_update_grub w ;;
  let update_grub := fst (snd r) in
  match clear_notification_ts with
  | Some c => if (grub_changed_ts <? c)%Z then Ok (fst r, false)
              else Ok (fst r, update_grub)
  | None => Ok (fst r, update_grub)
  end.

(** ** The vocabulary of the properties *)

(** No checksum is on record when [db.get] gives [None], or a value that
    Python takes for false and that is therefore no digest. *)
Definition no_checksum_on_record (w : world) (name : string) : Prop :=
  truthy (get_resource_sha256sum w name) = false.

(** A world that differs from [w] in its files only. *)
Definition with_files (w : world) (fs : gmap string string) : world :=
  World (db w) fs (calls w).

(** The sets of the reconciliation algorithm, in the words of its
    description. *)

Definition EffectiveCutoff (boot : Z) (acknowledgment : option Z) : Z :=
  match acknowledgment with
  | Some a => Z.max boot a
  | None => boot
  end.

(** The recorded time of the last change, the dawn of time without one. *)
Definition changed_at (w : world) (name : string) : Z :=
  match db w !! key_for name with
  | Some (VFloat t) => t
  | _ => datetime_min
  end.

(** The digest of the content on disk, if there is a file. *)
Definition live_checksum (w : world) (name : string) : option value :=
  match files w !! name with
  | Some content => Some (VStr (SHA256.hexdigest content))
  | None => None
  end.

Definition csum_differs (w : world) (name : string) : bool :=
  negb (truthy (get_resource_sha256sum w name))
  || bool_decide (get_resource_sha256sum w name <> live_checksum w name).

Definition TimeChanged (w : world) (cutoff : Z) (names : list string)
  : gset string :=
  list_to_set (List.filter (fun n => (cutoff <? changed_at w n)%Z) names).

Definition CsumChanged (w : world) (names : list string) : gset string :=
  list_to_set (List.filter (csum_differs w) names).

Definition CsumOnlyChanged (w : world) (cutoff : Z) (names : list string)
  : gset string :=
  CsumChanged w names ∖ TimeChanged w cutoff names.

Definition NeedsAcknowledgment (w : world) (cutoff : Z) (names : list string)
  : gset string :=
  TimeChanged w cutoff names
    ∩ (CsumChanged w names ∖ CsumOnlyChanged w cutoff names).

(** What the two comprehensions need in order not to raise: under the
    timestamp key of a listed name there is nothing or a number that is a
    date, and a listed name with a checksum on record has its file. *)
Definition readable (w : world) (names : list string) : Prop :=
  forall n, In n names ->
    (exists t, get_resource_changed_timestamp w n = Ok t)
    /\ (truthy (get_resource_sha256sum w n) = true ->
        exists content, files w !! n = Some content).

(** The test that puts one name into [time_changed] (lines 269-280). *)
Definition resource_changed_since_boot (m : machine) (w : world)
    (name : string) : result bool :=
  ack <- acknowledged_ts m w ;;
  changed_after w ack name.

(** ** Sample machines, worlds and collaborators for the closed instances *)

Module Sample.

(** Booted at 1000, read at 5000. *)
Definition host : machine := Machine 5000 4000 "5.4.0-42-generic" false.

(** A grub fragment on disk and an empty store. *)
Definition fresh : world :=
  World ∅ {[ GRUB_CONF := "GRUB_CMDLINE_LINUX_DEFAULT=quiet" ]} [].

(** A checksum on record for the grub fragment, whose file has since
    been removed (as by [remove_grub_configuration]). *)
Definition removed : world :=
  World {[ sha256sum_key GRUB_CONF := VStr (SHA256.hexdigest "GRUB_DEFAULT=0") ]}
        ∅ [].

(** The grub fragment was written at 2000, after the boot at 1000, and
    never had a checksum; the systemd file has neither a timestamp nor a
    checksum; the kernel is no file. *)
Definition drifted : world :=
  World {[ key_for GRUB_CONF := VFloat 2000 ]}
        {[ GRUB_CONF := "GRUB_CMDLINE_LINUX_DEFAULT=quiet";
           SYSTEMD_SYSTEM := "[Manager]" ]} [].

Definition names : list string := [KERNEL; GRUB_CONF; SYSTEMD_SYSTEM].

(** The defaults of the charm, with the running kernel pinned. *)
Definition pinned : charm_config :=
  {| reservation := "off"; cpu_range := ""; cfg_isolcpus := "";
     hugepages := ""; hugepagesz := ""; default_hugepagesz := "";
     raid_autodetection := ""; enable_pti := "";
     enable_iommu := false; enable_tsx := false;
     cfg_cpu_affinity_range := ""; cfg_grub_config_flags := "";
     cfg_systemd_config_flags := "DefaultLimitNOFILE=65536";
     cfg_config_flags := "";
     kernel_version := "5.4.0-42-generic"; update_grub := true;
     governor := "performance"; irqbalance_banned_cpus := "3" |}.

(** Stand-ins for the templates and for the INI reader: a rendering that
    prints the context after the template name, and a reader that keeps
    the text whole under one option. *)
Fixpoint show_flags (flags : pydict string) : string :=
  match flags with
  | [] => EmptyString
  | (k, v) :: rest => k ++ "=" ++ v ++ ";" ++ show_flags rest
  end.

Fixpoint show_context (context : pydict ctxval) : string :=
  match context with
  | [] => EmptyString
  | (k, CStr v) :: rest => k ++ "=" ++ v ++ ";" ++ show_context rest
  | (k, CTrue) :: rest => k ++ "=True;" ++ show_context rest
  | (k, CFlags f) :: rest => k ++ "={" ++ show_flags f ++ "};" ++ show_context rest
  end.

Definition render (source : string) (context : pydict ctxval) : string :=
  source ++ ":" ++ show_context context.

Definition read_string (text : string) : result ini :=
  Ok {[ "Manager" := {[ "text" := text ]} ]}.

End Sample.

(** ** The vocabulary of the further properties *)

(** The calls that act on the host itself rather than on a service of the
    unit: update-grub and the masking of the ondemand service. *)
Definition host_call (a : action) : bool :=
  match a with
  | RunUpdateGrub | SystemctlMask _ | SystemctlUnmask _ => true
  | _ => false
  end.

(** [w'] comes from [w] by calls that wrote, at most, the file [target] and
    the change time of [target]. *)
Definition touches_only (target : string) (w w' : world) : Prop :=
  (forall path, path <> target -> files w' !! path = files w !! path)
  /\ (forall key, key <> key_for target -> db w' !! key = db w !! key)
  /\ exists made, calls w' = (calls w ++ made)%list.

(** The acknowledgment time and every checksum on record are what they
    were. *)
Definition keeps_records (w w' : world) : Prop :=
  clear_notification_time w' = clear_notification_time w
  /\ forall n, get_resource_sha256sum w' n = get_resource_sha256sum w n.

(** The text [k=v] of one pair. *)
Definition piece_of (kv : string * string) : string :=
  fst kv ++ "=" ++ snd kv.

(** The text [k1=v1,k2=v2,...] of a list of pairs. *)
Fixpoint join_flags (pairs : list (string * string)) : string :=
  match pairs with
  | [] => EmptyString
  | [(k, v)] => k ++ "=" ++ v
  | (k, v) :: rest => k ++ "=" ++ v ++ "," ++ join_flags rest
  end.

(** The dictionary that assigning the stripped pairs in turn builds. *)
Definition assign_stripped (pairs : list (string * string)) (d : pydict string)
  : pydict string :=
  fold_left (fun d kv => dict_set (Str.strip (fst kv)) (Str.strip (snd kv)) d)
            pairs d.

(** A key without comma, equals sign or double quote and a value without
    comma or double quote. *)
Definition plain_pair (kv : string * string) : Prop :=
  Str.count_char "," (fst kv) = O
  /\ Str.count_char "=" (fst kv) = O
  /\ Str.count_char Str.dquote (fst kv) = O
  /\ Str.count_char "," (snd kv) = O
  /\ Str.count_char Str.dquote (snd kv) = O.

(** ** More sample machines, worlds and collaborators *)

Module Scenario.

(** The sample host read again at 6000, on an older kernel, in a
    container, and after a reboot at 8000. *)
Definition later : machine := Machine 6000 5000 "5.4.0-42-generic" false.
Definition old_kernel_host : machine := Machine 5000 4000 "5.4.0-40-generic" false.
Definition container : machine := Machine 5000 4000 "5.4.0-42-generic" true.
Definition rebooted : machine := Machine 9000 1000 "5.4.0-42-generic" false.


(** The deprecated pair reservation and cpu-range in use, and page table
    isolation switched on. *)
Definition legacy : charm_config :=
  {| reservation := "isolcpus"; cpu_range := "2-3"; cfg_isolcpus := "";
     hugepages := ""; hugepagesz := ""; default_hugepagesz := "";
     raid_autodetection := ""; enable_pti := "on";
     enable_iommu := false; enable_tsx := false;
     cfg_cpu_affinity_range := ""; cfg_grub_config_flags := "";
     cfg_systemd_config_flags := ""; cfg_config_flags := "";
     kernel_version := ""; update_grub := true;
     governor := ""; irqbalance_banned_cpus := "" |}.

(** A parser of the deprecated option that finds nothing, and a grub check
    that finds an update. *)
Definition no_legacy_flags (text : string) : pydict string := [].

Definition update_found (w : world) : result (world * (bool * string)) :=
  Ok (w, (true, "Found available grub updates.")).

End Scenario.

(** * Properties *)

(** ** [hashlib.sha256] on the test vectors of the standard *)

Example sha256_of_empty :
  SHA256.hexdigest ""
  = "e3b0c44298fc1c149afbf4c8996fb92427ae41e4649b934ca495991b7852b855".
Proof. vm_compute. reflexivity. Qed.

Example sha256_of_abc :
  SHA256.hexdigest "abc"
  = "ba7816bf8f01cfea414140de5dae2223b00361a396177a9cb410ff61f20015ad".
Proof. vm_compute. reflexivity. Qed.

Example sha256_of_two_blocks :
  SHA256.hexdigest "abcdbcdecdefdefgefghfghighijhijkijkljklmklmnlmnomnopnopq"
  = "248d6a61d20638b8e5c026930c3e6039a33ce45964ff2167f6ecedd419db06c1".
Proof. vm_compute. reflexivity. Qed.

(** ** The error monad and comprehensions *)

Lemma filterM_Ok {A : Type} (p : A -> result bool) (q : A -> bool) (l : list A) :
  (forall x, In x l -> p x = Ok (q x)) ->
  filterM p l = Ok (List.filter q l).
Proof.
  induction l as [|x xs IH]; intros Hp; simpl; [reflexivity|].
  rewrite (Hp x (or_introl eq_refl)); simpl.
  rewrite IH by (intros y Hy; apply Hp; right; exact Hy).
  reflexivity.
Qed.

Lemma filterM_Raise_inv {A : Type} (p : A -> result bool) (l : list A) e :
  filterM p l = Raise e -> exists y, In y l /\ p y = Raise e.
Proof.
  induction l as [|x xs IH]; simpl; [discriminate|].
  destruct (p x) as [b|e'] eqn:Hx; simpl.
  - destruct (filterM p xs) as [r|e''] eqn:Hxs; simpl; [discriminate|].
    intros [= ->]. destruct (IH eq_refl) as (y & Hy & Hpy).
    exists y. split; [right; exact Hy | exact Hpy].
  - intros [= ->]. exists x. split; [left; reflexivity | exact Hx].
Qed.

Lemma filterM_Raise_in {A : Type} (p : A -> result bool) (l : list A) x e :
  In x l -> p x = Raise e -> exists e', filterM p l = Raise e'.
Proof.
  induction l as [|y ys IH]; simpl; [tauto|].
  intros [-> | Hin] Hx.
  - rewrite Hx. simpl. eauto.
  - destruct (p y) as [b|e1]; simpl; [|eauto].
    destruct (IH Hin Hx) as [e' ->]. simpl. eauto.
Qed.

(** ** [parse_config_flags] *)

(** C8. The two documented inputs: a comma-delimited list of values for one
    key is glued back with commas onto that key, and a value in double
    quotes keeps its commas, its equals signs and its quotes. *)
Theorem parse_config_flags_documented_examples :
  parse_config_flags "key1=val1, key2=val2,val3,val4"
    = [("key1", "val1"); ("key2", "val2,val3,val4")]
  /\ parse_config_flags ("key1=" ++ Str.quoted "subkey1=val1,val2 subkey2=val3")
    = [("key1", Str.quoted "subkey1=val1,val2 subkey2=val3")].
Proof. split; vm_compute; reflexivity. Qed.

(** ** [checksum_changed] *)

Lemma checksum_changed_exn w name e :
  checksum_changed w name = Raise e -> e = FileNotFoundError.
Proof.
  unfold checksum_changed, calculate_resource_sha256sum.
  destruct (truthy _); simpl; [|discriminate].
  destruct (files w !! name); simpl.
  - case_bool_decide; discriminate.
  - intros [= <-]. reflexivity.
Qed.

(** C5. [checksum_changed] answers [True] exactly when no checksum is on
    record, or when the digest computed from the file differs from the one
    on record; without a record it answers [True] whatever the file. *)
Theorem checksum_changed_true_iff (w : world) (name : string) :
  (checksum_changed w name = Ok true <->
     no_checksum_on_record w name \/
     exists new_sum,
       calculate_resource_sha256sum w name = Ok new_sum /\
       get_resource_sha256sum w name <> Some (VStr new_sum))
  /\ (get_resource_sha256sum w name = None -> checksum_changed w name = Ok true).
Proof.
  unfold checksum_changed, no_checksum_on_record. split.
  - destruct (truthy (get_resource_sha256sum w name)) eqn:Ht; simpl.
    + destruct (calculate_resource_sha256sum w name) as [d|e]; simpl.
      * case_bool_decide as Hd; split.
        -- intros _. right. exists d. split; [reflexivity | exact Hd].
        -- reflexivity.
        -- discriminate.
        -- intros [Hf | (d' & [= <-] & Hne)]; [discriminate | contradiction].
      * split; [discriminate|].
        intros [Hf | (d' & Hd & _)]; discriminate.
    + split; [intros _; left; reflexivity | reflexivity].
  - intros ->. reflexivity.
Qed.

Lemma checksum_changed_true_iff_witness :
  checksum_changed Sample.fresh KERNEL = Ok true
  /\ checksum_changed Sample.drifted GRUB_CONF = Ok true.
Proof.
  split.
  - apply (proj2 (checksum_changed_true_iff Sample.fresh KERNEL)). reflexivity.
  - apply (proj1 (checksum_changed_true_iff Sample.drifted GRUB_CONF)).
    left. reflexivity.
Defined.

(** C10. Without a checksum on record the answer is [True] whatever the
    file system holds, the file is not read; with a checksum on record and
    no backing file, [checksum_changed] raises the error of [open], and so
    does [resources_changed_since_boot] on every list that has the name:
    it never returns, and it raises that very error once the timestamps of
    the first comprehension have been read. *)
Theorem checksum_changed_missing_file_asymmetry (w : world) (name : string) :
  (no_checksum_on_record w name ->
     forall fs, checksum_changed (with_files w fs) name = Ok true)
  /\ (truthy (get_resource_sha256sum w name) = true ->
      files w !! name = None ->
      checksum_changed w name = Raise FileNotFoundError
      /\ forall m names,
           In name names ->
           (forall r, resources_changed_since_boot m w names <> Ok r)
           /\ (forall ack time_changed,
                 acknowledged_ts m w = Ok ack ->
                 filterM (changed_after w ack) names = Ok time_changed ->
                 resources_changed_since_boot m w names
                   = Raise FileNotFoundError)).
Proof.
  split.
  - unfold no_checksum_on_record, checksum_changed, get_resource_sha256sum.
    intros Hrec fs. simpl. rewrite Hrec. reflexivity.
  - intros Hrec Hfile.
    assert (Hraise : checksum_changed w name = Raise FileNotFoundError).
    { unfold checksum_changed, calculate_resource_sha256sum.
      rewrite Hrec, Hfile. reflexivity. }
    split; [exact Hraise|]. intros m names Hin.
    destruct (filterM_Raise_in _ _ _ _ Hin Hraise) as [e He].
    assert (e = FileNotFoundError) as ->.
    { destruct (filterM_Raise_inv _ _ _ He) as (y & _ & Hy).
      exact (checksum_changed_exn _ _ _ Hy). }
    unfold resources_changed_since_boot. split.
    + intros r. destruct (acknowledged_ts m w) as [ack|]; simpl; [|discriminate].
      destruct (filterM (changed_after w ack) names); simpl; [|discriminate].
      rewrite He. simpl. discriminate.
    + intros ack tc Hack Htc. rewrite Hack. simpl. rewrite Htc. simpl.
      rewrite He. reflexivity.
Qed.

Lemma checksum_changed_missing_file_asymmetry_witness :
  checksum_changed (with_files Sample.fresh ∅) GRUB_CONF = Ok true
  /\ checksum_changed Sample.removed GRUB_CONF = Raise FileNotFoundError
  /\ resources_changed_since_boot Sample.host Sample.removed [KERNEL; GRUB_CONF]
     = Raise FileNotFoundError.
Proof.
  split.
  - apply (proj1 (checksum_changed_missing_file_asymmetry Sample.fresh GRUB_CONF)).
    reflexivity.
  - destruct (proj2 (checksum_changed_missing_file_asymmetry
                       Sample.removed GRUB_CONF)) as [Hraise Hlist].
    + vm_compute; reflexivity.
    + reflexivity.
    + split; [exact Hraise|].
      destruct (Hlist Sample.host [KERNEL; GRUB_CONF]) as [_ Herr].
      * right; left; reflexivity.
      * apply (Herr 1000%Z []); vm_compute; reflexivity.
Defined.

(** ** [update_resource_checksums] *)

Lemma string_app_length (s t : string) :
  String.length (s ++ t) = (String.length s + String.length t)%nat.
Proof. induction s as [|c s IH]; simpl; [reflexivity | rewrite IH; reflexivity]. Qed.

Lemma string_app_inv_tail (s1 s2 t : string) : s1 ++ t = s2 ++ t -> s1 = s2.
Proof.
  revert s2. induction s1 as [|c s1 IH]; intros [|c2 s2] H; simpl in H.
  - reflexivity.
  - apply (f_equal String.length) in H.
    rewrite ?string_app_length in H. simpl in H.
    rewrite ?string_app_length in H. lia.
  - apply (f_equal String.length) in H.
    rewrite ?string_app_length in H. simpl in H.
    rewrite ?string_app_length in H. lia.
  - injection H as -> H. f_equal. apply IH. exact H.
Qed.

Lemma key_for_inj r1 r2 : key_for r1 = key_for r2 -> r1 = r2.
Proof. unfold key_for. simpl. intros H. injection H as H. exact H. Qed.

Lemma sha256sum_key_inj r1 r2 : sha256sum_key r1 = sha256sum_key r2 -> r1 = r2.
Proof.
  unfold sha256sum_key. intros H.
  apply key_for_inj. exact (string_app_inv_tail _ _ _ H).
Qed.

(** The timestamp key of [r] is the checksum key of [n] only for the
    resource name made of [n] and the checksum suffix. *)
Lemma key_for_is_sha256sum_key r n :
  key_for r = sha256sum_key n <-> r = n ++ ".sha256sum".
Proof.
  unfold sha256sum_key, key_for. split.
  - simpl. intros H. injection H as H. exact H.
  - intros ->. simpl. reflexivity.
Qed.

Lemma path_exists_true w p :
  path_exists w p = true <-> exists content, files w !! p = Some content.
Proof. unfold path_exists. rewrite bool_decide_eq_true. reflexivity. Qed.

(** The loop never raises, touches neither the files nor the calls, and
    writes under checksum keys of listed names whose file exists only. *)
Lemma update_resource_checksums_total (resources : list string) (w : world) :
  exists w',
    update_resource_checksums w resources = Ok w'
    /\ files w' = files w /\ calls w' = calls w
    /\ forall k,
         (forall n, In n resources -> path_exists w n = true ->
                    k <> sha256sum_key n) ->
         db w' !! k = db w !! k.
Proof.
  revert w. induction resources as [|r rest IH]; intros w; simpl.
  - exists w. repeat split; reflexivity.
  - destruct (path_exists w r) eqn:Hex; simpl.
    + unfold calculate_resource_sha256sum.
      apply path_exists_true in Hex as Hc. destruct Hc as [content Hc].
      rewrite Hc. simpl.
      destruct (IH (db_set (sha256sum_key r) (VStr (SHA256.hexdigest content)) w))
        as (w' & Hw' & Hf & Hcalls & Hdb).
      exists w'. split; [exact Hw'|]. split; [exact Hf|]. split; [exact Hcalls|].
      intros k Hk. rewrite Hdb.
      * simpl. apply lookup_insert_ne. intros Heq.
        exact (Hk r (or_introl eq_refl) Hex (eq_sym Heq)).
      * intros n Hn Hn'. apply Hk; [right; exact Hn | exact Hn'].
    + destruct (IH w) as (w' & Hw' & Hf & Hcalls & Hdb).
      exists w'. split; [exact Hw'|]. split; [exact Hf|]. split; [exact Hcalls|].
      intros k Hk. apply Hdb. intros n Hn. apply Hk. right. exact Hn.
Qed.

(** After the loop the record of a listed name whose file exists is the
    digest of that file. *)
Lemma update_resource_checksums_stored (resources : list string) :
  forall (w w' : world) (n content : string),
    update_resource_checksums w resources = Ok w' ->
    files w !! n = Some content ->
    In n resources
      \/ db w !! sha256sum_key n = Some (VStr (SHA256.hexdigest content)) ->
    db w' !! sha256sum_key n = Some (VStr (SHA256.hexdigest content)).
Proof.
  induction resources as [|r rest IH]; intros w w' n content Hup Hfile Hn;
    simpl in Hup.
  - injection Hup as <-. destruct Hn as [[] | Hn]. exact Hn.
  - destruct (path_exists w r) eqn:Hex; simpl in Hup.
    + unfold calculate_resource_sha256sum in Hup.
      apply path_exists_true in Hex. destruct Hex as [cr Hcr].
      rewrite Hcr in Hup. simpl in Hup.
      apply (IH _ _ _ _ Hup); [exact Hfile|].
      destruct (decide (r = n)) as [-> | Hne].
      * right. simpl. rewrite Hfile in Hcr. injection Hcr as <-.
        apply lookup_insert_eq.
      * destruct Hn as [[Hrn | Hin] | Hdb]; [contradiction | left; exact Hin |].
        right. simpl. rewrite lookup_insert_ne; [exact Hdb|].
        intros Heq. apply Hne. exact (sha256sum_key_inj _ _ Heq).
    + apply (IH _ _ _ _ Hup Hfile).
      destruct Hn as [[-> | Hin] | Hdb]; [| left; exact Hin | right; exact Hdb].
      exfalso. unfold path_exists in Hex.
      apply bool_decide_eq_false in Hex. apply Hex. eauto.
Qed.

(** The key scheme has one overlap: the checksum of the name [n] is kept
    under the key that would hold the change timestamp of a resource named
    [n.sha256sum].  Recording the checksum of the grub fragment puts a
    string under that key, which [fromtimestamp] rejects.  The statement
    on timestamps below is therefore about names that are not of that
    form; no resource of the charm is. *)
Remark checksum_key_is_a_timestamp_key :
  match update_resource_checksums Sample.fresh [GRUB_CONF] with
  | Ok w' =>
      get_resource_changed_timestamp Sample.fresh (GRUB_CONF ++ ".sha256sum")
        = Ok datetime_min
      /\ get_resource_changed_timestamp w' (GRUB_CONF ++ ".sha256sum")
        = Raise TypeError
  | Raise _ => False
  end.
Proof. vm_compute. split; reflexivity. Qed.

Ltac strip_name H n :=
  repeat (destruct n as [|? n]; simpl in H;
          [discriminate H | injection H as ? H]);
  destruct n; discriminate H.

Lemma managed_resource_is_no_checksum_name r n :
  In r managed_resources -> r <> n ++ ".sha256sum".
Proof.
  intros Hr H. unfold managed_resources in Hr. simpl in Hr.
  destruct Hr as [<- | [<- | [<- | [<- | [<- | [<- | [<- | []]]]]]]];
    symmetry in H; strip_name H n.
Qed.

(** C7. The loop always completes.  A listed name without a backing file is
    skipped: the checksum it had on record stays.  No change timestamp is
    touched: the only keys written are checksum keys, so the timestamp of
    every name that is not itself a checksum name of a listed file, and in
    particular of every resource of the charm, is what it was. *)
Theorem update_resource_checksums_skips_and_keeps_timestamps
    (w : world) (resources : list string) :
  exists w',
    update_resource_checksums w resources = Ok w'
    /\ (forall n, In n resources -> path_exists w n = false ->
          get_resource_sha256sum w' n = get_resource_sha256sum w n)
    /\ (forall r,
          (forall n, In n resources -> path_exists w n = true ->
                     r <> n ++ ".sha256sum") ->
          db w' !! key_for r = db w !! key_for r
          /\ get_resource_changed_timestamp w' r
             = get_resource_changed_timestamp w r)
    /\ (forall r, In r managed_resources ->
          get_resource_changed_timestamp w' r
          = get_resource_changed_timestamp w r).
Proof.
  destruct (update_resource_checksums_total resources w)
    as (w' & Hw' & _ & _ & Hdb).
  assert (Hts : forall r,
             (forall n, In n resources -> path_exists w n = true ->
                        r <> n ++ ".sha256sum") ->
             db w' !! key_for r = db w !! key_for r
             /\ get_resource_changed_timestamp w' r
                = get_resource_changed_timestamp w r).
  { intros r Hr.
    assert (Hk : db w' !! key_for r = db w !! key_for r).
    { apply Hdb. intros n Hn Hex Heq.
      exact (Hr n Hn Hex (proj1 (key_for_is_sha256sum_key r n) Heq)). }
    split; [exact Hk|]. unfold get_resource_changed_timestamp.
    rewrite Hk. reflexivity. }
  exists w'. split; [exact Hw'|]. split; [|split; [exact Hts|]].
  - intros n Hn Hmissing. unfold get_resource_sha256sum. apply Hdb.
    intros n' Hn' Hex Heq. apply sha256sum_key_inj in Heq. subst n'.
    congruence.
  - intros r Hr. apply Hts. intros n _ _.
    exact (managed_resource_is_no_checksum_name r n Hr).
Qed.

Lemma update_resource_checksums_skips_and_keeps_timestamps_witness :
  exists w',
    update_resource_checksums Sample.fresh [KERNEL; GRUB_CONF] = Ok w'
    /\ get_resource_sha256sum w' KERNEL = get_resource_sha256sum Sample.fresh KERNEL
    /\ get_resource_changed_timestamp w' GRUB_CONF
       = get_resource_changed_timestamp Sample.fresh GRUB_CONF.
Proof.
  destruct (update_resource_checksums_skips_and_keeps_timestamps
              Sample.fresh [KERNEL; GRUB_CONF]) as (w' & Hw' & Hsum & Hts & _).
  exists w'. split; [exact Hw'|]. split.
  - apply Hsum; [left; reflexivity | vm_compute; reflexivity].
  - apply Hts. intros n [<- | [<- | []]] _; discriminate.
Defined.

(** ** [resources_changed_since_boot] *)

Lemma mk_datetime_Ok t d : mk_datetime t = Ok d -> d = t.
Proof. unfold mk_datetime. destruct (_ && _); [congruence | discriminate]. Qed.

Lemma changed_after_readable w cutoff n t :
  get_resource_changed_timestamp w n = Ok t ->
  changed_after w cutoff n = Ok (cutoff <? changed_at w n)%Z.
Proof.
  unfold changed_after, changed_at, get_resource_changed_timestamp.
  destruct (db w !! key_for n) as [[x | s] |]; simpl.
  - intros H. rewrite H. apply mk_datetime_Ok in H. subst t. reflexivity.
  - discriminate.
  - intros _. reflexivity.
Qed.

Lemma checksum_changed_readable w n :
  (truthy (get_resource_sha256sum w n) = true ->
   exists content, files w !! n = Some content) ->
  checksum_changed w n = Ok (csum_differs w n).
Proof.
  unfold checksum_changed, csum_differs, live_checksum,
    calculate_resource_sha256sum.
  destruct (truthy (get_resource_sha256sum w n)); simpl; [|reflexivity].
  intros H. destruct (H eq_refl) as [content ->]. simpl.
  case_bool_decide; reflexivity.
Qed.

Lemma acknowledged_ts_cutoff m w boot ack :
  boot_time m = Ok boot ->
  clear_notification_time w = Ok ack ->
  acknowledged_ts m w = Ok (EffectiveCutoff boot ack).
Proof.
  unfold acknowledged_ts. intros -> ->. simpl. destruct ack; reflexivity.
Qed.

(** The call on a readable world: both comprehensions are plain filters,
    the checksums of [CsumOnlyChanged] are refreshed and the names of
    [NeedsAcknowledgment] are returned. *)
Lemma resources_changed_since_boot_readable m w names boot ack :
  boot_time m = Ok boot ->
  clear_notification_time w = Ok ack ->
  readable w names ->
  exists w',
    update_resource_checksums w
      (elements (CsumOnlyChanged w (EffectiveCutoff boot ack) names)) = Ok w'
    /\ resources_changed_since_boot m w names
       = Ok (w', elements (NeedsAcknowledgment w (EffectiveCutoff boot ack) names)).
Proof.
  intros Hboot Hack Hread.
  set (cutoff := EffectiveCutoff boot ack).
  destruct (update_resource_checksums_total
              (elements (CsumOnlyChanged w cutoff names)) w) as (w' & Hw' & _).
  exists w'. split; [exact Hw'|].
  unfold resources_changed_since_boot.
  rewrite (acknowledged_ts_cutoff _ _ _ _ Hboot Hack). simpl. fold cutoff.
  rewrite (filterM_Ok _ (fun n => (cutoff <? changed_at w n)%Z)).
  2:{ intros n Hn. destruct (Hread n Hn) as [[t Ht] _].
      exact (changed_after_readable _ _ _ _ Ht). }
  simpl. rewrite (filterM_Ok _ (csum_differs w)).
  2:{ intros n Hn. destruct (Hread n Hn) as [_ Hf].
      exact (checksum_changed_readable _ _ Hf). }
  simpl. fold (TimeChanged w cutoff names). fold (CsumChanged w names).
  fold (CsumOnlyChanged w cutoff names). rewrite Hw'. reflexivity.
Qed.

Lemma filterM_Ok_inv {A : Type} (p : A -> result bool) (l : list A) r :
  filterM p l = Ok r -> forall x, In x l -> exists b, p x = Ok b.
Proof.
  revert r. induction l as [|y ys IH]; intros r H x Hx; [destruct Hx|].
  simpl in H. destruct (p y) as [b|] eqn:Hy; simpl in H; [|discriminate].
  destruct (filterM p ys) as [r'|] eqn:Hys; simpl in H; [|discriminate].
  destruct Hx as [<- | Hx]; [eauto | exact (IH r' eq_refl x Hx)].
Qed.

(** A call that returns has read every timestamp and every file it asked
    for. *)
Lemma returns_readable m w names r :
  resources_changed_since_boot m w names = Ok r -> readable w names.
Proof.
  unfold resources_changed_since_boot.
  destruct (acknowledged_ts m w) as [ack|]; simpl; [|discriminate].
  destruct (filterM (changed_after w ack) names) as [tc|] eqn:Htc; simpl;
    [|discriminate].
  destruct (filterM (checksum_changed w) names) as [cc|] eqn:Hcc; simpl;
    [|discriminate].
  intros _ n Hn. split.
  - destruct (filterM_Ok_inv _ _ _ Htc n Hn) as [b Hb].
    unfold changed_after in Hb.
    destruct (get_resource_changed_timestamp w n) as [t|]; [eauto|discriminate].
  - destruct (filterM_Ok_inv _ _ _ Hcc n Hn) as [b Hb].
    unfold checksum_changed, calculate_resource_sha256sum in Hb.
    intros Htruthy. rewrite Htruthy in Hb. simpl in Hb.
    destruct (files w !! n) as [content|]; [eauto|discriminate].
Qed.

Lemma elem_of_NeedsAcknowledgment w cutoff names n :
  n ∈ NeedsAcknowledgment w cutoff names <->
  In n names /\ (cutoff < changed_at w n)%Z /\ csum_differs w n = true.
Proof.
  unfold NeedsAcknowledgment, CsumOnlyChanged, TimeChanged, CsumChanged.
  rewrite elem_of_intersection, !elem_of_difference, !elem_of_list_to_set,
    !list_elem_of_In, !filter_In, Z.ltb_lt.
  tauto.
Qed.

Lemma elem_of_CsumOnlyChanged w cutoff names n :
  n ∈ CsumOnlyChanged w cutoff names <->
  In n names /\ csum_differs w n = true /\ (changed_at w n <= cutoff)%Z.
Proof.
  unfold CsumOnlyChanged, CsumChanged, TimeChanged.
  rewrite elem_of_difference, !elem_of_list_to_set, !list_elem_of_In,
    !filter_In, Z.ltb_lt.
  split.
  - intros [[Hn Hc] Hnot]. repeat split; try assumption.
    destruct (Z_lt_le_dec cutoff (changed_at w n)); [|assumption].
    exfalso. apply Hnot. split; assumption.
  - intros (Hn & Hc & Hle). split; [split; assumption|]. intros [_ Hlt]. lia.
Qed.

(** C1. With the cutoff the later of the boot time and the acknowledgment
    when there is one, the boot time otherwise: the list the call returns
    has no repetition and holds exactly the names of
    [TimeChanged ∩ (CsumChanged − CsumOnlyChanged)], that is the listed
    names changed after the cutoff whose checksum differs; and the call does
    return on every world where the timestamps and the files it asks for
    can be read. *)
Theorem resources_changed_since_boot_needs_acknowledgment
    (m : machine) (w : world) (names : list string) (boot : Z) (ack : option Z) :
  boot_time m = Ok boot ->
  clear_notification_time w = Ok ack ->
  let cutoff := EffectiveCutoff boot ack in
  (forall w' changed,
     resources_changed_since_boot m w names = Ok (w', changed) ->
     NoDup changed
     /\ list_to_set changed
        = TimeChanged w cutoff names
            ∩ (CsumChanged w names ∖ CsumOnlyChanged w cutoff names)
     /\ CsumOnlyChanged w cutoff names
        = CsumChanged w names ∖ TimeChanged w cutoff names
     /\ forall n, In n changed <->
          In n names /\ (cutoff < changed_at w n)%Z /\ csum_differs w n = true)
  /\ (readable w names ->
      exists w' changed, resources_changed_since_boot m w names = Ok (w', changed)).
Proof.
  intros Hboot Hack cutoff. split.
  - intros w' changed Hcall.
    destruct (resources_changed_since_boot_readable _ _ _ _ _ Hboot Hack
                (returns_readable _ _ _ _ Hcall)) as (w'' & _ & Hcall').
    rewrite Hcall in Hcall'. injection Hcall' as _ ->. fold cutoff.
    split; [apply NoDup_elements|].
    split; [apply list_to_set_elements_L|]. split; [reflexivity|].
    intros n. rewrite <- list_elem_of_In, elem_of_elements.
    apply elem_of_NeedsAcknowledgment.
  - intros Hread.
    destruct (resources_changed_since_boot_readable _ _ _ _ _ Hboot Hack Hread)
      as (w' & _ & Hcall).
    eauto.
Qed.

(** C4. A listed name whose checksum differs from the record (or has no
    record) and whose change is not after the cutoff is left out of the
    list the call returns, and when its file exists the digest of the file
    is the checksum on record after the call; the call does return on
    every world where the timestamps and the files it asks for can be
    read. *)
Theorem resources_changed_since_boot_checksum_catch_up
    (m : machine) (w : world) (names : list string) (boot : Z) (ack : option Z)
    (name : string) :
  boot_time m = Ok boot ->
  clear_notification_time w = Ok ack ->
  In name names ->
  csum_differs w name = true ->
  (changed_at w name <= EffectiveCutoff boot ack)%Z ->
  (forall w' changed,
     resources_changed_since_boot m w names = Ok (w', changed) ->
     ~ In name changed
     /\ forall content,
          files w !! name = Some content ->
          get_resource_sha256sum w' name
            = Some (VStr (SHA256.hexdigest content)))
  /\ (readable w names ->
      exists w' changed, resources_changed_since_boot m w names = Ok (w', changed)).
Proof.
  intros Hboot Hack Hin Hcsum Hle. split.
  - intros w' changed Hcall.
    destruct (resources_changed_since_boot_readable _ _ _ _ _ Hboot Hack
                (returns_readable _ _ _ _ Hcall)) as (w'' & Hup & Hcall').
    rewrite Hcall in Hcall'. injection Hcall' as -> ->. split.
    + rewrite <- list_elem_of_In, elem_of_elements, elem_of_NeedsAcknowledgment.
      intros (_ & Hlt & _). lia.
    + intros content Hfile. unfold get_resource_sha256sum.
      apply (update_resource_checksums_stored _ _ _ _ _ Hup Hfile).
      left. rewrite <- list_elem_of_In, elem_of_elements.
      apply elem_of_CsumOnlyChanged. repeat split; assumption.
  - intros Hread.
    destruct (resources_changed_since_boot_readable _ _ _ _ _ Hboot Hack Hread)
      as (w' & _ & Hcall).
    eauto.
Qed.

Lemma drifted_readable : readable Sample.drifted Sample.names.
Proof.
  intros n [<- | [<- | [<- | []]]]; (split; [eexists; vm_compute; reflexivity|]);
    intros H; vm_compute in H; try discriminate H; eexists; reflexivity.
Defined.

Lemma resources_changed_since_boot_needs_acknowledgment_witness :
  exists w' changed,
    resources_changed_since_boot Sample.host Sample.drifted Sample.names
      = Ok (w', changed)
    /\ forall n, In n changed <->
         In n Sample.names
         /\ (EffectiveCutoff 1000 None < changed_at Sample.drifted n)%Z
         /\ csum_differs Sample.drifted n = true.
Proof.
  destruct (resources_changed_since_boot_needs_acknowledgment
              Sample.host Sample.drifted Sample.names 1000 None
              eq_refl eq_refl) as [Hset Hreturns].
  destruct (Hreturns drifted_readable) as (w' & changed & Hcall).
  exists w', changed. split; [exact Hcall|].
  destruct (Hset w' changed Hcall) as (_ & _ & _ & Hin). exact Hin.
Defined.

Lemma resources_changed_since_boot_checksum_catch_up_witness :
  exists w' changed,
    resources_changed_since_boot Sample.host Sample.drifted Sample.names
      = Ok (w', changed)
    /\ ~ In SYSTEMD_SYSTEM changed
    /\ get_resource_sha256sum w' SYSTEMD_SYSTEM
       = Some (VStr (SHA256.hexdigest "[Manager]")).
Proof.
  destruct (resources_changed_since_boot_checksum_catch_up
              Sample.host Sample.drifted Sample.names 1000 None SYSTEMD_SYSTEM
              eq_refl eq_refl) as [Heffect Hreturns].
  - right; right; left; reflexivity.
  - vm_compute; reflexivity.
  - vm_compute; discriminate.
  - destruct (Hreturns drifted_readable) as (w' & changed & Hcall).
    exists w', changed. split; [exact Hcall|].
    destruct (Heffect w' changed Hcall) as [Hout Hsum].
    split; [exact Hout | apply Hsum; reflexivity].
Defined.

(** ** The changed-since-boot determination of one resource *)

Lemma mk_datetime_range t d :
  mk_datetime t = Ok d -> (datetime_min <= t <= datetime_max)%Z.
Proof.
  unfold mk_datetime.
  destruct (_ && _) eqn:H; [|discriminate]. intros _.
  apply andb_true_iff in H. destruct H as [H1 H2].
  apply Z.leb_le in H1. apply Z.leb_le in H2. lia.
Qed.

Lemma mk_datetime_in_range t :
  (datetime_min <= t <= datetime_max)%Z -> mk_datetime t = Ok t.
Proof.
  intros [H1 H2]. unfold mk_datetime.
  apply Z.leb_le in H1. apply Z.leb_le in H2. rewrite H1, H2. reflexivity.
Qed.

Lemma key_for_not_clear_notification R :
  key_for R <> "clear-notification-timestamp".
Proof. unfold key_for. simpl. discriminate. Qed.

(** C3, as stated, fails at its first step: a resource without a record is
    taken to have changed at [datetime.min], which is after no boot time,
    so the determination is [False]. *)
Lemma unrecorded_resource_not_changed_since_boot :
  db Sample.fresh !! key_for KERNEL = None
  /\ boot_time Sample.host = Ok 1000%Z
  /\ resource_changed_since_boot Sample.host Sample.fresh KERNEL = Ok false
  /\ resources_changed_since_boot Sample.host Sample.fresh [KERNEL]
     = Ok (Sample.fresh, []).
Proof. vm_compute. repeat split; reflexivity. Qed.

(** C3, amended. For a resource without a record and a world without an
    acknowledgment, on a machine booted at [T0]: the determination is
    [False]; after [set_resource] at [T1 > T0] it is [True]; after an
    acknowledgment at [T2 > T1] it is [False] again.  ([T2] is not the
    epoch itself, whose float is read back as no acknowledgment.) *)
Theorem changed_since_boot_scenario
    (m m1 m2 : machine) (w : world) (R : string) (T0 : Z) :
  boot_time m = Ok T0 ->
  db w !! key_for R = None ->
  db w !! "clear-notification-timestamp" = None ->
  (T0 < clock m1 <= datetime_max)%Z ->
  (clock m1 < clock m2 <= datetime_max)%Z ->
  clock m2 <> 0%Z ->
  let w1 := set_resource m1 w R in
  let w2 := clear_notification m2 w1 in
  resource_changed_since_boot m w R = Ok false
  /\ resource_changed_since_boot m w1 R = Ok true
  /\ resource_changed_since_boot m w2 R = Ok false.
Proof.
  intros Hboot Hrec Hack HT1 HT2 Hnz w1 w2.
  pose proof (mk_datetime_range _ _ Hboot) as Hrange.
  pose proof (mk_datetime_Ok _ _ Hboot) as HT0.
  unfold boot_time in Hboot. rewrite <- HT0 in Hboot.
  assert (Hts1 : mk_datetime (clock m1) = Ok (clock m1)).
  { apply mk_datetime_in_range. lia. }
  assert (Hts2 : mk_datetime (clock m2) = Ok (clock m2)).
  { apply mk_datetime_in_range. lia. }
  unfold resource_changed_since_boot, acknowledged_ts, boot_time,
    clear_notification_time, changed_after, get_resource_changed_timestamp.
  rewrite <- HT0, Hboot. simpl. repeat split.
  - rewrite Hack, Hrec. simpl. f_equal. apply Z.ltb_ge. lia.
  - rewrite lookup_insert_ne by apply key_for_not_clear_notification.
    rewrite Hack, lookup_insert_eq. simpl. rewrite Hts1. simpl.
    f_equal. apply Z.ltb_lt. lia.
  - rewrite lookup_insert_eq. simpl.
    destruct (Z.eqb_spec (clock m2) 0) as [|_]; [contradiction|]. simpl.
    rewrite Hts2. simpl.
    rewrite lookup_insert_ne
      by (intros H; exact (key_for_not_clear_notification R (eq_sym H))).
    rewrite lookup_insert_eq. simpl. rewrite Hts1. simpl.
    f_equal. apply Z.ltb_ge. lia.
Qed.

Lemma changed_since_boot_scenario_witness :
  let m1 := Machine 2000 1000 "5.4.0-42-generic" false in
  let m2 := Machine 3000 2000 "5.4.0-42-generic" false in
  let w1 := set_resource m1 Sample.fresh KERNEL in
  let w2 := clear_notification m2 w1 in
  resource_changed_since_boot Sample.host Sample.fresh KERNEL = Ok false
  /\ resource_changed_since_boot Sample.host w1 KERNEL = Ok true
  /\ resource_changed_since_boot Sample.host w2 KERNEL = Ok false.
Proof.
  apply (changed_since_boot_scenario Sample.host
           (Machine 2000 1000 "5.4.0-42-generic" false)
           (Machine 3000 2000 "5.4.0-42-generic" false)
           Sample.fresh KERNEL 1000).
  - reflexivity.
  - reflexivity.
  - reflexivity.
  - unfold datetime_max; simpl; lia.
  - unfold datetime_max; simpl; lia.
  - simpl; discriminate.
Defined.

(** ** [install_configured_kernel] *)

Lemma image_is_not_modules_extra v :
  AptInstall ("linux-image-" ++ v) <> AptInstall ("linux-modules-extra-" ++ v).
Proof. simpl. discriminate. Qed.

(** C6. With a configured version that is the running one, the call updates
    the package index and installs the modules-extra package, and that is
    all: no image install, no record for the kernel resource.  In every
    case the kernel resource is recorded as changed exactly when the image
    install is among the calls made. *)
Theorem install_configured_kernel_marks_new_image_only
    (m : machine) (cfg : charm_config) (w : world) :
  let w' := install_configured_kernel m cfg w in
  let extra := AptInstall ("linux-modules-extra-" ++ kernel_version cfg) in
  let image := AptInstall ("linux-image-" ++ kernel_version cfg) in
  (kernel_version cfg <> EmptyString ->
   kernel_version cfg = kernel_release m ->
   w' = World (db w) (files w) (calls w ++ [AptUpdate; extra])
   /\ ~ In image [AptUpdate; extra])
  /\ exists made,
       calls w' = (calls w ++ made)%list
       /\ files w' = files w
       /\ ((In image made
            /\ db w' = <[key_for KERNEL := VFloat (clock m)]> (db w))
           \/ (~ In image made /\ db w' = db w)).
Proof.
  intros w' extra image. subst w'.
  assert (Hnot : ~ In image [AptUpdate; extra]).
  { intros [H | [H | []]]; [discriminate H|].
    exact (image_is_not_modules_extra _ (eq_sym H)). }
  unfold install_configured_kernel, _is_kernel_already_running, nonempty.
  split.
  - intros Hne Heq.
    destruct (String.eqb_spec (kernel_version cfg) EmptyString) as [|_];
      [contradiction|]. simpl.
    destruct (String.eqb_spec (kernel_version cfg) (kernel_release m)) as [_|];
      [|contradiction].
    split; [|exact Hnot]. unfold call. simpl.
    rewrite <- app_assoc. reflexivity.
  - destruct (String.eqb_spec (kernel_version cfg) EmptyString) as [He|Hne];
      simpl.
    + exists []. rewrite app_nil_r. repeat split. right. split; [tauto | reflexivity].
    + destruct (String.eqb_spec (kernel_version cfg) (kernel_release m));
        simpl.
      * exists [AptUpdate; extra]. rewrite <- app_assoc.
        repeat split. right. split; [exact Hnot | reflexivity].
      * exists [AptUpdate; extra; image]. rewrite <- !app_assoc.
        repeat split. left. split; [|reflexivity].
        right; right; left; reflexivity.
Qed.

Lemma install_configured_kernel_marks_new_image_only_witness :
  install_configured_kernel Sample.host Sample.pinned Sample.fresh
    = World (db Sample.fresh) (files Sample.fresh)
        [AptUpdate; AptInstall "linux-modules-extra-5.4.0-42-generic"].
Proof.
  destruct (install_configured_kernel_marks_new_image_only
              Sample.host Sample.pinned Sample.fresh) as [Hrun _].
  destruct Hrun as [Hw _].
  - simpl; discriminate.
  - reflexivity.
  - exact Hw.
Defined.

(** ** The [update_*] methods called twice *)

(** C2, as stated, fails for [update_irqbalance]: with the configuration
    and the disk as the first call left them, the second call renders the
    file and restarts the service again. *)
Lemma update_irqbalance_acts_on_every_call :
  let update := update_irqbalance Sample.render Sample.host Sample.pinned in
  let written :=
    RenderFile IRQBALANCE_CONF_TMPL IRQBALANCE_CONF
      "irqbalance.j2:irqbalance_banned_cpus=3;" in
  calls (update Sample.fresh) = [written; ServiceRestart "irqbalance"]
  /\ calls (update (update Sample.fresh))
     = [written; ServiceRestart "irqbalance";
        written; ServiceRestart "irqbalance"]
  /\ files (update (update Sample.fresh)) = files (update Sample.fresh).
Proof. vm_compute. repeat split; reflexivity. Qed.

Lemma update_systemd_system_file_again
    render parser read_string (m1 m2 : machine) cfg (w w1 : world) :
  update_systemd_system_file render parser read_string m1 cfg w = Ok w1 ->
  update_systemd_system_file render parser read_string m2 cfg w1 = Ok w1.
Proof.
  unfold update_systemd_system_file, _systemd_update_available, read_file.
  remember (_assemble_systemd_context parser cfg) as context eqn:Hcontext.
  remember (render SYSTEMD_SYSTEM_TMPL context) as output eqn:Houtput.
  destruct (files w !! SYSTEMD_SYSTEM) as [text|] eqn:Hfile; simpl.
  - destruct (read_string text) as [existing|] eqn:Hexisting; simpl;
      [|discriminate].
    destruct (read_string output) as [new|] eqn:Hnew; simpl; [|discriminate].
    case_bool_decide as Hdiff; intros [= <-].
    + simpl. rewrite lookup_insert_eq. simpl. rewrite <- Houtput, Hnew. simpl.
      rewrite bool_decide_eq_false_2 by (intros H; apply H; reflexivity).
      reflexivity.
    + rewrite Hfile. simpl. rewrite Hexisting. simpl.
      rewrite bool_decide_eq_false_2 by (intros H; exact (H Hdiff)).
      reflexivity.
  - destruct (read_string output) as [new|] eqn:Hnew; simpl; [|discriminate].
    case_bool_decide as Hdiff; intros [= <-].
    + simpl. rewrite lookup_insert_eq. simpl. rewrite <- Houtput, Hnew. simpl.
      rewrite bool_decide_eq_false_2 by (intros H; apply H; reflexivity).
      reflexivity.
    + rewrite Hfile. simpl.
      rewrite bool_decide_eq_false_2 by (intros H; exact (H Hdiff)).
      reflexivity.
Qed.

(** C2, amended. [update_systemd_system_file] is idempotent: called again
    with the same configuration on the world the first call left, it
    returns that world, no file written, no timestamp recorded, no external
    call.  [update_irqbalance], [update_grub_file] and, for a valid
    governor, [update_cpufreq] are not: the second call renders the file
    again (for irqbalance the very content the first call wrote) and
    repeats the restart. *)
Theorem update_twice
    (render : string -> pydict ctxval -> string)
    (parser : string -> pydict string)
    (read_string : string -> result ini)
    (m1 m2 : machine) (cfg : charm_config) (w : world) :
  (forall w1,
     update_systemd_system_file render parser read_string m1 cfg w = Ok w1 ->
     update_systemd_system_file render parser read_string m2 cfg w1 = Ok w1)
  /\ (let w1 := update_irqbalance render m1 cfg w in
      exists content,
        files w1 !! IRQBALANCE_CONF = Some content
        /\ calls (update_irqbalance render m2 cfg w1)
           = (calls w1 ++ [RenderFile IRQBALANCE_CONF_TMPL IRQBALANCE_CONF content;
                           ServiceRestart "irqbalance"])%list)
  /\ (let w1 := update_grub_file render parser m1 cfg w in
      exists content,
        calls (update_grub_file render parser m2 cfg w1)
        = (calls w1 ++ RenderFile GRUB_CONF_TMPL GRUB_CONF content
                    :: (if update_grub cfg && negb (is_container m2)
                        then [RunUpdateGrub] else []))%list)
  /\ (let w1 := update_cpufreq render m1 cfg w in
      governor cfg = "" \/ governor cfg = "performance"
      \/ governor cfg = "powersave" ->
      exists content,
        calls (update_cpufreq render m2 cfg w1)
        = (calls w1 ++ RenderFile CPUFREQUTILS_TMPL CPUFREQUTILS content
                    :: (if is_container m2 then []
                        else if nonempty (governor cfg)
                             then [SystemctlMask "ondemand"]
                             else [SystemctlUnmask "ondemand"])
                    ++ [ServiceRestart "cpufrequtils"])%list).
Proof.
  split; [intros w1; apply update_systemd_system_file_again|].
  split; [|split].
  - simpl. eexists. split.
    + unfold update_irqbalance, _render_boot_resource, _render_resource. simpl.
      apply lookup_insert_eq.
    + unfold update_irqbalance, _render_boot_resource, _render_resource, call.
      simpl. rewrite <- !app_assoc. reflexivity.
  - simpl. unfold update_grub_file, _update_grub, _render_boot_resource,
      _render_resource, call.
    eexists.
    destruct (update_grub cfg && negb (is_container m2)); simpl;
      rewrite <- ?app_assoc; reflexivity.
  - simpl. intros Hgov. unfold update_cpufreq.
    assert (Hvalid : String.eqb (governor cfg) "" || String.eqb (governor cfg) "performance"
              || String.eqb (governor cfg) "powersave" = true).
    { destruct Hgov as [-> | [-> | ->]]; reflexivity. }
    rewrite Hvalid. simpl.
    unfold _render_boot_resource, _render_resource, call.
    eexists.
    destruct (is_container m2); simpl.
    + rewrite <- !app_assoc. reflexivity.
    + destruct (nonempty (governor cfg)); simpl;
        rewrite <- !app_assoc; reflexivity.
Qed.

Lemma update_twice_witness :
  let update :=
    update_systemd_system_file Sample.render parse_config_flags
      Sample.read_string Sample.host Sample.pinned in
  exists w1, update Sample.fresh = Ok w1 /\ update w1 = Ok w1
             /\ calls w1 = [RenderFile SYSTEMD_SYSTEM_TMPL SYSTEMD_SYSTEM
                              "etc.systemd.system.conf.j2:systemd_config_flags={DefaultLimitNOFILE=65536;};"].
Proof.
  simpl. eexists. split; [vm_compute; reflexivity|]. split.
  - apply (proj1 (update_twice Sample.render parse_config_flags
                    Sample.read_string Sample.host Sample.host Sample.pinned
                    Sample.fresh)).
    vm_compute; reflexivity.
  - reflexivity.
Defined.

(** ** [str.replace] and the rewrite of UUIDs *)

Lemma prefix_nil (s : string) : prefix EmptyString s = true.
Proof. destruct s; reflexivity. Qed.

Lemma prefix_app (a b : string) : prefix a (a ++ b) = true.
Proof.
  induction a as [|c a IH]; simpl; [apply prefix_nil|].
  destruct (ascii_dec c c); [exact IH | contradiction].
Qed.

Lemma contains_of_prefix (sub s : string) :
  prefix sub s = true -> Str.contains sub s = true.
Proof. intros H. destruct s; cbn [Str.contains]; rewrite H; reflexivity. Qed.

Lemma contains_cons (sub : string) (c : ascii) (s : string) :
  Str.contains sub s = true -> Str.contains sub (String c s) = true.
Proof. intros H. cbn [Str.contains]. rewrite H. apply orb_true_r. Qed.

Section Replace.

Variables old new : string.

Local Abbreviation R := (Str.replace_from old new O).

(** Where [old] occurs, [new] is in the result. *)
Lemma replace_from_contains_new (c : ascii) (old' : string) (s : string) :
  old = String c old' ->
  Str.contains old s = true ->
  Str.contains new (R s) = true.
Proof.
  intros Hold. induction s as [|x t IH]; intros Hocc.
  - subst old. simpl in Hocc. discriminate.
  - cbn [Str.replace_from]. destruct (prefix old (String x t)) eqn:Hp.
    + apply contains_of_prefix, prefix_app.
    + cbn [Str.contains] in Hocc. rewrite Hp in Hocc. simpl in Hocc.
      apply contains_cons, IH, Hocc.
Qed.

(** Both texts start with the character [c0] and have it nowhere else,
    and [old] is no prefix of a text that starts with [new]. *)
Variable c0 : ascii.
Variables old' new' : string.
Hypothesis Hold : old = String c0 old'.
Hypothesis Hnew : new = String c0 new'.
Hypothesis Hold_free : Str.count_char c0 old' = O.
Hypothesis Hnew_free : Str.count_char c0 new' = O.
Hypothesis Hmismatch : forall z, prefix old (new ++ z) = false.

Lemma count_char_cons_0 (a : ascii) (q : string) :
  Str.count_char c0 (String a q) = O -> a <> c0 /\ Str.count_char c0 q = O.
Proof.
  simpl. unfold Str.eqb_char.
  destruct (Ascii.eqb_spec a c0); simpl; [discriminate|]. tauto.
Qed.

(** A text without [c0] that starts the result starts the input. *)
Lemma prefix_of_replaced (q : string) :
  Str.count_char c0 q = O ->
  forall t, prefix q (R t) = true -> prefix q t = true.
Proof.
  induction q as [|a q IH]; intros Hfree t; [intros _; apply prefix_nil|].
  apply count_char_cons_0 in Hfree. destruct Hfree as [Ha Hq].
  destruct t as [|x t]; [simpl; discriminate|].
  cbn [Str.replace_from]. destruct (prefix old (String x t)).
  - rewrite Hnew. simpl. destruct (ascii_dec a c0); [contradiction|discriminate].
  - simpl. destruct (ascii_dec a x); [|discriminate]. apply IH, Hq.
Qed.

Lemma old_not_prefix_of_replaced (t : string) : prefix old (R t) = false.
Proof.
  destruct t as [|x t]; [rewrite Hold; reflexivity|].
  cbn [Str.replace_from]. destruct (prefix old (String x t)) eqn:Hp.
  - apply Hmismatch.
  - rewrite Hold in Hp |- *. simpl in Hp |- *.
    destruct (ascii_dec c0 x); [|reflexivity].
    destruct (prefix old' (Str.replace_from (String c0 old') new 0 t)) eqn:Hq;
      [|reflexivity].
    rewrite <- Hold in Hq.
    rewrite (prefix_of_replaced old' Hold_free t Hq) in Hp. discriminate.
Qed.

Lemma contains_old_after_free (u z : string) :
  Str.count_char c0 u = O ->
  Str.contains old z = false ->
  Str.contains old (u ++ z) = false.
Proof.
  induction u as [|a u IH]; intros Hfree Hz; [exact Hz|].
  apply count_char_cons_0 in Hfree. destruct Hfree as [Ha Hu].
  change (String a u ++ z) with (String a (u ++ z)).
  cbn [Str.contains]. rewrite (IH Hu Hz), orb_false_r.
  rewrite Hold. simpl. destruct (ascii_dec c0 a); [|reflexivity].
  subst a. contradiction.
Qed.

(** No occurrence of [old] is left, wherever the scan stands. *)
Lemma replace_from_removes_old (t : string) :
  forall skip, Str.contains old (Str.replace_from old new skip t) = false.
Proof.
  induction t as [|x t IH]; intros skip.
  - rewrite Hold. reflexivity.
  - cbn [Str.replace_from]. destruct skip as [|k]; [|apply IH].
    destruct (prefix old (String x t)) eqn:Hp.
    + set (z := Str.replace_from old new (Nat.pred (String.length old)) t).
      pose proof (Hmismatch z) as Hm. rewrite Hnew in Hm |- *.
      change (String c0 new' ++ z) with (String c0 (new' ++ z)) in Hm |- *.
      cbn [Str.contains]. rewrite Hm.
      exact (contains_old_after_free new' z Hnew_free (IH _)).
    + cbn [Str.contains]. rewrite (IH O), orb_false_r.
      pose proof (old_not_prefix_of_replaced (String x t)) as H.
      cbn [Str.replace_from] in H. rewrite Hp in H. exact H.
Qed.

End Replace.

(** C9, as stated, fails on its second half: only the occurrences that
    follow [root=] are rewritten, so the UUID stays wherever another
    parameter refers to it. *)
Lemma uuid_kept_outside_root_parameter :
  let text := "linux /vmlinuz root=UUID=12ab-34cd ro resume=UUID=12ab-34cd" in
  let out := _replace_uuids_with_labels text [("12ab-34cd", "mylabel")] in
  Str.contains "root=UUID=12ab-34cd" text = true
  /\ out = "linux /vmlinuz root=LABEL=mylabel ro resume=UUID=12ab-34cd"
  /\ Str.contains "UUID=12ab-34cd" out = true.
Proof. vm_compute. repeat split; reflexivity. Qed.

(** Why the second half below asks for a UUID without the letter r: for
    other texts in the place of the UUID the replacement can itself put
    together the text it replaces. *)
Remark replacement_can_build_an_occurrence :
  let X := "Yroot=LABEL=mylabel" in
  let text := "root=UUID=Y" ++ "root=UUID=" ++ X in
  _replace_uuids_with_labels text [(X, "mylabel")] = "root=UUID=" ++ X.
Proof. vm_compute. reflexivity. Qed.

(** C9, amended. For a text that contains [root=UUID=X] and the mapping of
    [X] to [mylabel], the rewritten text contains [root=LABEL=mylabel];
    and when [X] has no letter r (hexadecimal digits and dashes have none)
    it no longer contains [root=UUID=X]. *)
Theorem replace_root_uuid_with_label (text X : string) :
  Str.contains ("root=UUID=" ++ X) text = true ->
  let out := _replace_uuids_with_labels text [(X, "mylabel")] in
  Str.contains "root=LABEL=mylabel" out = true
  /\ (Str.count_char "r" X = O ->
      Str.contains ("root=UUID=" ++ X) out = false).
Proof.
  intros Hocc out. subst out. cbn [_replace_uuids_with_labels].
  change ("root=LABEL=" ++ "mylabel") with "root=LABEL=mylabel".
  change ("root=UUID=" ++ X) with (String "r" ("oot=UUID=" ++ X)) in *.
  cbn [Str.replace]. split.
  - exact (replace_from_contains_new _ _ "r" ("oot=UUID=" ++ X) text eq_refl Hocc).
  - intros Hfree.
    apply (replace_from_removes_old _ _ "r" ("oot=UUID=" ++ X) "oot=LABEL=mylabel");
      try reflexivity.
    simpl. exact Hfree.
Qed.

Lemma replace_root_uuid_with_label_witness :
  let text := "linux /vmlinuz root=UUID=12ab-34cd ro resume=UUID=12ab-34cd" in
  let out := _replace_uuids_with_labels text [("12ab-34cd", "mylabel")] in
  Str.contains "root=LABEL=mylabel" out = true
  /\ Str.contains "root=UUID=12ab-34cd" out = false.
Proof.
  destruct (replace_root_uuid_with_label
              "linux /vmlinuz root=UUID=12ab-34cd ro resume=UUID=12ab-34cd"
              "12ab-34cd" eq_refl) as [Hlabel Hgone].
  split; [exact Hlabel | apply Hgone; reflexivity].
Defined.

(** * Further properties of the library *)

(** ** Records of [BootResourceState] *)

Arguments SHA256.hexdigest : simpl never.

Lemma hexdigest_nonempty (data : string) : SHA256.hexdigest data <> EmptyString.
Proof.
  unfold SHA256.hexdigest.
  generalize (SHA256.digest (SHA256.bytes_of_string data)). intros h.
  unfold SHA256.hex8 at 1. discriminate.
Qed.

(** X1. [set_resource] records the clock as the change time of the
    resource, which is what [get_resource_changed_timestamp] then returns
    when the clock is a date; the change time of every other resource is
    left as it was, and so is every recorded checksum (the method sets no
    checksum), but for a resource whose name is a checksum name. *)
Theorem set_resource_round_trip (m : machine) (w : world) (r : string) :
  ((datetime_min <= clock m <= datetime_max)%Z ->
   get_resource_changed_timestamp (set_resource m w r) r = Ok (clock m))
  /\ (forall r', r' <> r ->
        get_resource_changed_timestamp (set_resource m w r) r'
        = get_resource_changed_timestamp w r')
  /\ (forall r', r <> r' ++ ".sha256sum" ->
        get_resource_sha256sum (set_resource m w r) r'
        = get_resource_sha256sum w r')
  /\ files (set_resource m w r) = files w
  /\ calls (set_resource m w r) = calls w.
Proof.
  unfold get_resource_changed_timestamp, get_resource_sha256sum, set_resource.
  simpl. repeat split.
  - intros Hrange. rewrite lookup_insert_eq. simpl.
    apply mk_datetime_in_range, Hrange.
  - intros r' Hne. rewrite lookup_insert_ne; [reflexivity|].
    intros H. apply Hne. symmetry. exact (key_for_inj _ _ H).
  - intros r' Hne. rewrite lookup_insert_ne; [reflexivity|].
    intros H. apply Hne. exact (proj1 (key_for_is_sha256sum_key r r') H).
Qed.

Lemma set_resource_round_trip_witness :
  get_resource_changed_timestamp
    (set_resource Sample.host Sample.fresh GRUB_CONF) GRUB_CONF = Ok 5000%Z
  /\ get_resource_changed_timestamp
       (set_resource Sample.host Sample.fresh GRUB_CONF) KERNEL
     = get_resource_changed_timestamp Sample.fresh KERNEL.
Proof.
  destruct (set_resource_round_trip Sample.host Sample.fresh GRUB_CONF)
    as (Hget & Hother & _).
  split.
  - apply Hget. unfold datetime_min, datetime_max. simpl. lia.
  - apply Hother. discriminate.
Defined.

(** X2. After [update_resource_checksums], [checksum_changed] answers
    [False] for every listed name whose file exists: the record is the
    digest of the file, and a digest is never an empty (false) value. *)
Theorem checksum_settled_after_update (w : world) (resources : list string) :
  exists w',
    update_resource_checksums w resources = Ok w'
    /\ forall n, In n resources -> path_exists w n = true ->
         checksum_changed w' n = Ok false.
Proof.
  destruct (update_resource_checksums_total resources w)
    as (w' & Hw' & Hfiles & _).
  exists w'. split; [exact Hw'|]. intros n Hn Hex.
  apply path_exists_true in Hex. destruct Hex as [content Hc].
  pose proof (update_resource_checksums_stored _ _ _ _ _ Hw' Hc
                (or_introl Hn)) as Hrec.
  rewrite checksum_changed_readable
    by (intros _; exists content; rewrite Hfiles; exact Hc).
  unfold csum_differs, live_checksum, get_resource_sha256sum.
  rewrite Hrec, Hfiles, Hc.
  generalize (hexdigest_nonempty content).
  generalize (SHA256.hexdigest content). intros d Hd.
  cbn [truthy].
  destruct (String.eqb_spec d EmptyString) as [He|_]; [contradiction|].
  rewrite bool_decide_eq_false_2 by (intros H; apply H; reflexivity).
  reflexivity.
Qed.

Lemma checksum_settled_after_update_witness :
  exists w',
    update_resource_checksums Sample.fresh [KERNEL; GRUB_CONF] = Ok w'
    /\ checksum_changed Sample.fresh GRUB_CONF = Ok true
    /\ checksum_changed w' GRUB_CONF = Ok false.
Proof.
  destruct (checksum_settled_after_update Sample.fresh [KERNEL; GRUB_CONF])
    as (w' & Hw' & Hsettled).
  exists w'. split; [exact Hw'|]. split; [reflexivity|].
  apply Hsettled; [right; left; reflexivity | vm_compute; reflexivity].
Defined.

(** ** Queries after a change *)

Ltac in_dates := unfold datetime_min, datetime_max; simpl; lia.

Lemma names_are_no_checksum_names (n n' : string) :
  In n Sample.names -> In n' Sample.names -> n <> n' ++ ".sha256sum".
Proof.
  intros Hn _. apply managed_resource_is_no_checksum_name.
  destruct Hn as [<- | [<- | [<- | []]]]; unfold managed_resources; simpl; tauto.
Qed.

Lemma fresh_readable : readable Sample.fresh Sample.names.
Proof.
  intros n [<- | [<- | [<- | []]]]; (split; [eexists; vm_compute; reflexivity|]);
    intros H; vm_compute in H; discriminate H.
Qed.

Lemma query_returns_inv m w names r :
  resources_changed_since_boot m w names = Ok r ->
  exists boot ack, boot_time m = Ok boot /\ clear_notification_time w = Ok ack.
Proof.
  unfold resources_changed_since_boot, acknowledged_ts.
  destruct (boot_time m) as [boot|]; simpl; [|discriminate].
  destruct (clear_notification_time w) as [ack|]; simpl; [|discriminate].
  intros _. eauto.
Qed.

Lemma update_resource_checksums_absent (l : list string) (w : world) :
  (forall n, In n l -> path_exists w n = false) ->
  update_resource_checksums w l = Ok w.
Proof.
  induction l as [|r rest IH]; intros H; simpl; [reflexivity|].
  rewrite (H r (or_introl eq_refl)). simpl.
  apply IH. intros n Hn. apply H. right. exact Hn.
Qed.

Lemma sha256sum_key_not_clear_notification n :
  "clear-notification-timestamp" <> sha256sum_key n.
Proof. unfold sha256sum_key, key_for. simpl. discriminate. Qed.

Lemma digest_is_truthy content :
  truthy (Some (VStr (SHA256.hexdigest content))) = true.
Proof.
  generalize (hexdigest_nonempty content).
  generalize (SHA256.hexdigest content). intros d Hd. cbn [truthy].
  destruct (String.eqb_spec d EmptyString); [contradiction | reflexivity].
Qed.

(** What a refresh of the checksums of [l] leaves and what it settles, for
    names none of which is the checksum name of a refreshed one. *)
Lemma refresh_facts (l names : list string) (w w1 : world) :
  update_resource_checksums w l = Ok w1 ->
  (forall n n', In n names -> In n' l -> n <> n' ++ ".sha256sum") ->
  files w1 = files w /\ calls w1 = calls w
  /\ clear_notification_time w1 = clear_notification_time w
  /\ (forall n, In n names -> db w1 !! key_for n = db w !! key_for n)
  /\ (forall n, In n l -> path_exists w n = true ->
        csum_differs w1 n = false
        /\ truthy (get_resource_sha256sum w1 n) = true)
  /\ (forall n, ~ (In n l /\ path_exists w n = true) ->
        get_resource_sha256sum w1 n = get_resource_sha256sum w n).
Proof.
  intros Hup Hnames.
  destruct (update_resource_checksums_total l w) as (w' & Hw' & Hfiles & Hcalls & Hdb).
  rewrite Hup in Hw'. injection Hw' as <-.
  split; [exact Hfiles|]. split; [exact Hcalls|]. split; [|split; [|split]].
  - unfold clear_notification_time. rewrite Hdb; [reflexivity|].
    intros n _ _. apply sha256sum_key_not_clear_notification.
  - intros n Hn. apply Hdb. intros n' Hn' _ H.
    exact (Hnames n n' Hn Hn' (proj1 (key_for_is_sha256sum_key n n') H)).
  - intros n Hn Hex. apply path_exists_true in Hex. destruct Hex as [content Hc].
    pose proof (update_resource_checksums_stored _ _ _ _ _ Hup Hc (or_introl Hn)) as Hrec.
    unfold csum_differs, live_checksum, get_resource_sha256sum.
    rewrite Hrec, Hfiles, Hc, digest_is_truthy.
    rewrite bool_decide_eq_false_2 by (intros H; apply H; reflexivity).
    split; reflexivity.
  - intros n Hn. unfold get_resource_sha256sum. apply Hdb.
    intros n' Hn' Hex H. apply sha256sum_key_inj in H. subst n'.
    apply Hn. split; assumption.
Qed.

Lemma refresh_csum_differs (l names : list string) (w w1 : world) n :
  update_resource_checksums w l = Ok w1 ->
  (forall n n', In n names -> In n' l -> n <> n' ++ ".sha256sum") ->
  ~ (In n l /\ path_exists w n = true) ->
  csum_differs w1 n = csum_differs w n.
Proof.
  intros Hup Hnames Hn.
  destruct (refresh_facts l names w w1 Hup Hnames) as (Hfiles & _ & _ & _ & _ & Hsame).
  unfold csum_differs, live_checksum. rewrite (Hsame n Hn), Hfiles. reflexivity.
Qed.

(** X3. A query that has returned settles the store: asked again, at any
    later time with the same boot time, [resources_changed_since_boot]
    returns the same names and writes nothing more.  The names are taken
    not to contain the checksum name of one another, as is the case for
    the resources of the charm. *)
Theorem query_again_is_stable (m m2 : machine) (w w1 : world)
    (names changed : list string) :
  (forall n n', In n names -> In n' names -> n <> n' ++ ".sha256sum") ->
  boot_time m2 = boot_time m ->
  resources_changed_since_boot m w names = Ok (w1, changed) ->
  resources_changed_since_boot m2 w1 names = Ok (w1, changed).
Proof.
  intros Hnames Hboot2 Hcall.
  destruct (query_returns_inv _ _ _ _ Hcall) as (boot & ack & Hboot & Hack).
  pose proof (returns_readable _ _ _ _ Hcall) as Hread.
  destruct (resources_changed_since_boot_readable m w names boot ack Hboot Hack Hread)
    as (w' & Hup & Hres).
  rewrite Hres in Hcall. injection Hcall as <- <-.
  set (cutoff := EffectiveCutoff boot ack) in *.
  set (C := CsumOnlyChanged w cutoff names) in *.
  assert (HC : forall n, In n (elements C) <->
                 In n names /\ csum_differs w n = true /\ (changed_at w n <= cutoff)%Z).
  { intros n. rewrite <- list_elem_of_In, elem_of_elements.
    apply elem_of_CsumOnlyChanged. }
  assert (Hnames' : forall n n', In n names -> In n' (elements C) ->
                      n <> n' ++ ".sha256sum").
  { intros n n' Hn Hn'. apply Hnames; [exact Hn | exact (proj1 (proj1 (HC n') Hn'))]. }
  destruct (refresh_facts _ names w w' Hup Hnames')
    as (Hfiles & Hcalls & Hack' & Hts & Hsettled & Hsame).
  assert (Hat : forall n, In n names -> changed_at w' n = changed_at w n).
  { intros n Hn. unfold changed_at. rewrite (Hts n Hn). reflexivity. }
  assert (Hread' : readable w' names).
  { intros n Hn. destruct (Hread n Hn) as [Ht Hfile]. split.
    - unfold get_resource_changed_timestamp in *. rewrite (Hts n Hn). exact Ht.
    - intros Htruthy. rewrite Hfiles.
      destruct (path_exists w n) eqn:Hex; [apply path_exists_true; exact Hex|].
      apply Hfile. rewrite <- Htruthy. f_equal. symmetry. apply Hsame.
      intros [_ H]. congruence. }
  rewrite Hack in Hack'. rewrite <- Hboot2 in Hboot.
  destruct (resources_changed_since_boot_readable m2 w' names boot ack Hboot Hack' Hread')
    as (w2 & Hup2 & Hres2).
  fold cutoff in Hup2, Hres2. rewrite Hres2.
  assert (Hw2 : w2 = w').
  { rewrite update_resource_checksums_absent in Hup2; [congruence|].
    intros n Hn. rewrite <- list_elem_of_In, elem_of_elements in Hn.
    apply elem_of_CsumOnlyChanged in Hn. destruct Hn as (Hn & Hdiff & Hle).
    destruct (path_exists w' n) eqn:Hex; [|reflexivity]. exfalso.
    assert (Hexw : path_exists w n = true).
    { unfold path_exists in *. rewrite <- Hfiles. exact Hex. }
    rewrite (Hat n Hn) in Hle.
    destruct (csum_differs w n) eqn:Hdw.
    - assert (HnC : In n (elements C)) by (apply HC; repeat split; assumption).
      destruct (Hsettled n HnC Hexw) as [Hfalse _]. congruence.
    - rewrite (refresh_csum_differs _ names w w' n Hup Hnames') in Hdiff; [congruence|].
      intros [HnC _]. apply HC in HnC. destruct HnC as (_ & Htrue & _). congruence. }
  subst w2. f_equal. f_equal. f_equal.
  apply leibniz_equiv. apply set_equiv. intros n.
  rewrite !elem_of_NeedsAcknowledgment.
  split; intros (Hn & Hlt & Hdiff); (split; [exact Hn|]).
  - rewrite (Hat n Hn) in Hlt. split; [exact Hlt|]. rewrite <- Hdiff. symmetry.
    apply (refresh_csum_differs _ names w w' n Hup Hnames').
    intros [HnC _]. apply HC in HnC. destruct HnC as (_ & _ & Hle). lia.
  - rewrite (Hat n Hn). split; [exact Hlt|]. rewrite <- Hdiff.
    apply (refresh_csum_differs _ names w w' n Hup Hnames').
    intros [HnC _]. apply HC in HnC. destruct HnC as (_ & _ & Hle). lia.
Qed.

Lemma query_again_is_stable_witness :
  exists w1 changed,
    resources_changed_since_boot Sample.host Sample.drifted Sample.names
    = Ok (w1, changed)
    /\ resources_changed_since_boot Scenario.later w1 Sample.names
       = Ok (w1, changed).
Proof.
  destruct (resources_changed_since_boot Sample.host Sample.drifted Sample.names)
    as [[w1 changed]|e] eqn:Hcall.
  - exists w1, changed. split; [reflexivity|].
    apply (query_again_is_stable Sample.host Scenario.later Sample.drifted).
    + exact names_are_no_checksum_names.
    + reflexivity.
    + exact Hcall.
  - exfalso. vm_compute in Hcall. discriminate Hcall.
Defined.

Lemma key_for_not_sha256sum_key_self t : key_for t <> sha256sum_key t.
Proof.
  intros H. apply (proj1 (key_for_is_sha256sum_key t t)) in H.
  apply (f_equal String.length) in H. rewrite string_app_length in H.
  simpl in H. lia.
Qed.

(** A world [w1] that differs from [w] in the store by the change time [c]
    recorded for [t]. *)
Lemma touched_store (w w1 : world) (t : string) (c : Z) :
  db w1 = <[key_for t := VFloat c]> (db w) ->
  clear_notification_time w1 = clear_notification_time w
  /\ changed_at w1 t = c
  /\ get_resource_changed_timestamp w1 t = mk_datetime c
  /\ (forall n, n <> t -> db w1 !! key_for n = db w !! key_for n)
  /\ (forall n, t <> n ++ ".sha256sum" ->
        get_resource_sha256sum w1 n = get_resource_sha256sum w n).
Proof.
  intros Hdb.
  unfold clear_notification_time, changed_at, get_resource_changed_timestamp,
    get_resource_sha256sum.
  rewrite Hdb. rewrite lookup_insert_eq.
  split; [|split; [reflexivity|split; [reflexivity|split]]].
  - rewrite lookup_insert_ne by apply key_for_not_clear_notification. reflexivity.
  - intros n Hn. rewrite lookup_insert_ne; [reflexivity|].
    intros H. apply Hn. symmetry. exact (key_for_inj _ _ H).
  - intros n Hn. rewrite lookup_insert_ne; [reflexivity|].
    intros H. apply Hn. exact (proj1 (key_for_is_sha256sum_key t n) H).
Qed.

Lemma In_elements_NeedsAcknowledgment w cutoff names n :
  In n (elements (NeedsAcknowledgment w cutoff names)) <->
  In n names /\ (cutoff < changed_at w n)%Z /\ csum_differs w n = true.
Proof.
  rewrite <- list_elem_of_In, elem_of_elements.
  apply elem_of_NeedsAcknowledgment.
Qed.

(** The report after a resource has been touched: [w1] is [w] with the
    change time [c] recorded for [t] and, possibly, another content in the
    file [t]. *)
Lemma touched_then_query (m2 : machine) (w w1 : world) (names : list string)
    (t : string) (c boot : Z) (ack : option Z) :
  db w1 = <[key_for t := VFloat c]> (db w) ->
  (forall n, n <> t -> files w1 !! n = files w !! n) ->
  (datetime_min <= c <= datetime_max)%Z ->
  (forall n, In n names -> t <> n ++ ".sha256sum") ->
  readable w names ->
  (truthy (get_resource_sha256sum w t) = true ->
   exists content, files w1 !! t = Some content) ->
  boot_time m2 = Ok boot ->
  clear_notification_time w = Ok ack ->
  exists w' changed,
    resources_changed_since_boot m2 w1 names = Ok (w', changed)
    /\ (In t changed <->
        In t names /\ (EffectiveCutoff boot ack < c)%Z /\ csum_differs w1 t = true)
    /\ (forall n, n <> t ->
          (In n changed <->
           In n names /\ (EffectiveCutoff boot ack < changed_at w n)%Z
           /\ csum_differs w n = true)).
Proof.
  intros Hdb Hfiles Hc Halias Hread Hfile Hboot Hack.
  destruct (touched_store w w1 t c Hdb) as (Hack1 & Hat & Hts & Hother & Hrec).
  rewrite Hack in Hack1.
  assert (Hread1 : readable w1 names).
  { intros n Hn. destruct (Hread n Hn) as [Ht Hf].
    destruct (String.eqb_spec n t) as [->|Hne].
    - split; [exists c; rewrite Hts; apply mk_datetime_in_range, Hc|].
      rewrite (Hrec t (Halias t Hn)). exact Hfile.
    - split.
      + unfold get_resource_changed_timestamp in *. rewrite (Hother n Hne). exact Ht.
      + rewrite (Hrec n (Halias n Hn)), (Hfiles n Hne). exact Hf. }
  destruct (resources_changed_since_boot_readable m2 w1 names boot ack
              Hboot Hack1 Hread1) as (w' & _ & Hres).
  exists w', (elements (NeedsAcknowledgment w1 (EffectiveCutoff boot ack) names)).
  split; [exact Hres|]. split.
  - rewrite In_elements_NeedsAcknowledgment, Hat. reflexivity.
  - intros n Hne. rewrite In_elements_NeedsAcknowledgment.
    assert (Hatn : changed_at w1 n = changed_at w n).
    { unfold changed_at. rewrite (Hother n Hne). reflexivity. }
    rewrite Hatn.
    split; intros (Hn & Hlt & Hdiff); (split; [exact Hn|split; [exact Hlt|]]);
      unfold csum_differs, live_checksum in *;
      rewrite (Hrec n (Halias n Hn)), (Hfiles n Hne) in *; exact Hdiff.
Qed.

Lemma csum_differs_digest (w : world) (n content : string) :
  files w !! n = Some content ->
  csum_differs w n = true <->
  get_resource_sha256sum w n <> Some (VStr (SHA256.hexdigest content)).
Proof.
  intros Hc. unfold csum_differs, live_checksum. rewrite Hc.
  destruct (truthy (get_resource_sha256sum w n)) eqn:Ht; simpl.
  - rewrite bool_decide_eq_true. reflexivity.
  - split; [|reflexivity]. intros _ H. rewrite H, digest_is_truthy in Ht.
    discriminate.
Qed.

(** X4. The report after [_render_boot_resource] has written [target] at
    the time [clock m]: the target is reported exactly when it is listed,
    the time is after the cutoff and the checksum on record (if any) is not
    the digest of the rendered content; the report about every other name
    is what it would have been without the rendering. *)
Theorem rendered_resource_is_reported
    (render_template : string -> pydict ctxval -> string)
    (m m2 : machine) (w : world) (names : list string)
    (source target : string) (context : pydict ctxval)
    (boot : Z) (ack : option Z) :
  let content := render_template source context in
  let w1 := _render_boot_resource render_template m source target context w in
  (datetime_min <= clock m <= datetime_max)%Z ->
  (forall n, In n names -> target <> n ++ ".sha256sum") ->
  readable w names ->
  boot_time m2 = Ok boot ->
  clear_notification_time w = Ok ack ->
  exists w' changed,
    resources_changed_since_boot m2 w1 names = Ok (w', changed)
    /\ (In target changed <->
        In target names /\ (EffectiveCutoff boot ack < clock m)%Z
        /\ get_resource_sha256sum w target
           <> Some (VStr (SHA256.hexdigest content)))
    /\ (forall n, n <> target ->
          (In n changed <->
           In n names /\ (EffectiveCutoff boot ack < changed_at w n)%Z
           /\ csum_differs w n = true)).
Proof.
  intros content w1 Hc Halias Hread Hboot Hack.
  assert (Hfile : files w1 !! target = Some content)
    by (subst w1; simpl; apply lookup_insert_eq).
  destruct (touched_then_query m2 w w1 names target (clock m) boot ack)
    as (w' & changed & Hres & Htarget & Hother);
    try assumption; try reflexivity.
  - intros n Hn. subst w1. simpl. apply lookup_insert_ne. congruence.
  - intros _. exists content. exact Hfile.
  - exists w', changed. split; [exact Hres|]. split; [|exact Hother].
    rewrite Htarget. rewrite (csum_differs_digest w1 target content Hfile).
    split; intros (Hn & Hlt & Hdiff); (split; [exact Hn|split; [exact Hlt|]]).
    + intros H. apply Hdiff. unfold get_resource_sha256sum in *.
      subst w1. simpl. rewrite lookup_insert_ne; [exact H|].
      intros Hk. exact (Halias target Hn (proj1 (key_for_is_sha256sum_key _ _) Hk)).
    + intros H. apply Hdiff. unfold get_resource_sha256sum in *.
      subst w1. simpl in H. rewrite lookup_insert_ne in H; [exact H|].
      intros Hk. exact (Halias target Hn (proj1 (key_for_is_sha256sum_key _ _) Hk)).
Qed.

Lemma rendered_resource_is_reported_witness :
  exists w' changed,
    resources_changed_since_boot Scenario.later
      (_render_boot_resource Sample.render Sample.host GRUB_CONF_TMPL GRUB_CONF
         [] Sample.fresh) Sample.names
    = Ok (w', changed)
    /\ In GRUB_CONF changed.
Proof.
  destruct (rendered_resource_is_reported Sample.render Sample.host
              Scenario.later Sample.fresh Sample.names GRUB_CONF_TMPL GRUB_CONF
              [] 1000 None) as (w' & changed & Hcall & Hgrub & _).
  - in_dates.
  - intros n Hn. apply (names_are_no_checksum_names GRUB_CONF n); [|exact Hn].
    right. left. reflexivity.
  - exact fresh_readable.
  - reflexivity.
  - reflexivity.
  - exists w', changed. split; [exact Hcall|]. apply Hgrub.
    split; [right; left; reflexivity|]. split; [simpl; lia | discriminate].
Defined.

Lemma short_name_is_no_checksum_name (r n : string) :
  (String.length r < 10)%nat -> r <> n ++ ".sha256sum".
Proof.
  intros Hlen H. apply (f_equal String.length) in H.
  rewrite string_app_length in H. simpl in H. lia.
Qed.

(** X5. After [install_configured_kernel] has installed an image (a
    configured version that is not the running one), a query lists the
    kernel resource exactly when the installation is later than the boot
    and than the last acknowledgment.  The kernel is no file, so there is
    no checksum on record for it. *)
Theorem new_kernel_is_reported (m m2 : machine) (cfg : charm_config)
    (w : world) (names : list string) (boot : Z) (ack : option Z) :
  kernel_version cfg <> EmptyString ->
  kernel_version cfg <> kernel_release m ->
  (datetime_min <= clock m <= datetime_max)%Z ->
  readable w names ->
  no_checksum_on_record w KERNEL ->
  boot_time m2 = Ok boot ->
  clear_notification_time w = Ok ack ->
  exists w' changed,
    resources_changed_since_boot m2 (install_configured_kernel m cfg w) names
    = Ok (w', changed)
    /\ (In KERNEL changed <->
        In KERNEL names /\ (EffectiveCutoff boot ack < clock m)%Z).
Proof.
  intros Hv Hrun Hc Hread Hnone Hboot Hack.
  set (w1 := install_configured_kernel m cfg w).
  assert (Hw1 : db w1 = <[key_for KERNEL := VFloat (clock m)]> (db w)
                /\ files w1 = files w).
  { subst w1. unfold install_configured_kernel, _is_kernel_already_running, nonempty.
    destruct (String.eqb_spec (kernel_version cfg) EmptyString); [contradiction|].
    destruct (String.eqb_spec (kernel_version cfg) (kernel_release m));
      [contradiction|].
    simpl. split; reflexivity. }
  destruct Hw1 as [Hdb Hfiles].
  assert (Halias : forall n, KERNEL <> n ++ ".sha256sum").
  { intros n. apply short_name_is_no_checksum_name. simpl. lia. }
  destruct (touched_then_query m2 w w1 names KERNEL (clock m) boot ack)
    as (w' & changed & Hres & Hkernel & _); try assumption.
  - intros n _. rewrite Hfiles. reflexivity.
  - intros n _. apply Halias.
  - intros Ht. unfold no_checksum_on_record in Hnone. congruence.
  - exists w', changed. split; [exact Hres|]. rewrite Hkernel.
    assert (Hdiff : csum_differs w1 KERNEL = true).
    { unfold csum_differs.
      destruct (touched_store w w1 KERNEL (clock m) Hdb) as (_ & _ & _ & _ & Hrec).
      rewrite (Hrec KERNEL (Halias KERNEL)). unfold no_checksum_on_record in Hnone.
      rewrite Hnone. reflexivity. }
    rewrite Hdiff. tauto.
Qed.

Lemma new_kernel_is_reported_witness :
  exists w' changed,
    resources_changed_since_boot Scenario.later
      (install_configured_kernel Scenario.old_kernel_host Sample.pinned
         Sample.fresh) Sample.names
    = Ok (w', changed)
    /\ In KERNEL changed.
Proof.
  destruct (new_kernel_is_reported Scenario.old_kernel_host Scenario.later
              Sample.pinned Sample.fresh Sample.names 1000 None)
    as (w' & changed & Hcall & Hkernel).
  - discriminate.
  - discriminate.
  - in_dates.
  - exact fresh_readable.
  - reflexivity.
  - reflexivity.
  - reflexivity.
  - exists w', changed. split; [exact Hcall|]. apply Hkernel.
    split; [left; reflexivity | simpl; lia].
Defined.

(** X6. [clear_notification] acknowledges every change recorded up to
    its time: the acknowledgment reads back as that time and the next
    query returns the empty list.  (The time is not the epoch instant,
    which reads back as no acknowledgment.) *)
Theorem acknowledged_changes_not_reported (m m2 : machine) (w : world)
    (names : list string) (boot : Z) :
  (datetime_min <= clock m <= datetime_max)%Z ->
  clock m <> 0%Z ->
  readable w names ->
  (forall n, In n names -> (changed_at w n <= clock m)%Z) ->
  boot_time m2 = Ok boot ->
  clear_notification_time (clear_notification m w) = Ok (Some (clock m))
  /\ exists w',
       resources_changed_since_boot m2 (clear_notification m w) names
       = Ok (w', []).
Proof.
  intros Hc Hnz Hread Hold Hboot.
  set (w0 := clear_notification m w).
  assert (Hts : forall n, db w0 !! key_for n = db w !! key_for n).
  { intros n. subst w0. simpl. apply lookup_insert_ne.
    intros H. symmetry in H. exact (key_for_not_clear_notification n H). }
  assert (Hrec : forall n, get_resource_sha256sum w0 n = get_resource_sha256sum w n).
  { intros n. subst w0. unfold get_resource_sha256sum. simpl.
    apply lookup_insert_ne. apply sha256sum_key_not_clear_notification. }
  assert (Hack : clear_notification_time w0 = Ok (Some (clock m))).
  { subst w0. unfold clear_notification_time, clear_notification. simpl.
    rewrite lookup_insert_eq. simpl.
    destruct (Z.eqb_spec (clock m) 0) as [H|_]; [contradiction|]. simpl.
    rewrite (mk_datetime_in_range _ Hc). reflexivity. }
  split; [exact Hack|].
  assert (Hread0 : readable w0 names).
  { intros n Hn. destruct (Hread n Hn) as [Ht Hf]. split.
    - unfold get_resource_changed_timestamp in *. rewrite Hts. exact Ht.
    - rewrite Hrec. exact Hf. }
  destruct (resources_changed_since_boot_readable m2 w0 names boot _
              Hboot Hack Hread0) as (w' & _ & Hres).
  exists w'. rewrite Hres. f_equal. f_equal.
  destruct (elements _) as [|n rest] eqn:Hel; [reflexivity|]. exfalso.
  assert (Hn : In n (elements (NeedsAcknowledgment w0
                 (EffectiveCutoff boot (Some (clock m))) names)))
    by (rewrite Hel; left; reflexivity).
  apply In_elements_NeedsAcknowledgment in Hn. destruct Hn as (Hn & Hlt & _).
  unfold changed_at in Hlt. rewrite Hts in Hlt.
  specialize (Hold n Hn). unfold changed_at in Hold. simpl in Hlt. lia.
Qed.

Lemma acknowledged_changes_not_reported_witness :
  clear_notification_time (clear_notification Sample.host Sample.drifted)
  = Ok (Some 5000%Z)
  /\ exists w',
       resources_changed_since_boot Scenario.later
         (clear_notification Sample.host Sample.drifted) Sample.names
       = Ok (w', []).
Proof.
  apply (acknowledged_changes_not_reported Sample.host Scenario.later
           Sample.drifted Sample.names 1000).
  - in_dates.
  - discriminate.
  - exact drifted_readable.
  - intros n [<- | [<- | [<- | []]]]; vm_compute; discriminate.
  - reflexivity.
Defined.




(** ** Updaters and removers *)

Lemma touches_only_refl t w : touches_only t w w.
Proof.
  repeat split; try reflexivity. exists []. rewrite app_nil_r. reflexivity.
Qed.

Lemma touches_only_call t w w1 a :
  touches_only t w w1 -> touches_only t w (call a w1).
Proof.
  intros (Hf & Hd & made & Hc). repeat split; simpl; [exact Hf | exact Hd|].
  exists (made ++ [a])%list. rewrite Hc, app_assoc. reflexivity.
Qed.

Lemma touches_only_set_resource t w w1 m :
  touches_only t w w1 -> touches_only t w (set_resource m w1 t).
Proof.
  intros (Hf & Hd & Hc). repeat split; simpl; [exact Hf | | exact Hc].
  intros key Hk. rewrite lookup_insert_ne by congruence. apply Hd, Hk.
Qed.

Lemma touches_only_render render m source t context w w1 :
  touches_only t w w1 ->
  touches_only t w (_render_boot_resource render m source t context w1).
Proof.
  intros (Hf & Hd & made & Hc). repeat split; simpl.
  - intros path Hp. rewrite lookup_insert_ne by congruence. apply Hf, Hp.
  - intros key Hk. rewrite lookup_insert_ne by congruence. apply Hd, Hk.
  - eexists. rewrite Hc, <- app_assoc. reflexivity.
Qed.

Lemma touches_only_update_grub t w w1 m cfg :
  touches_only t w w1 -> touches_only t w (_update_grub m cfg w1).
Proof.
  intros H. unfold _update_grub.
  destruct (update_grub cfg && negb (is_container m));
    [apply touches_only_call|]; exact H.
Qed.

Lemma touches_only_remove_file t w w1 :
  touches_only t w w1 -> touches_only t w (remove_file t w1).
Proof.
  intros (Hf & Hd & Hc). repeat split; simpl; [|exact Hd | exact Hc].
  intros path Hp. rewrite lookup_delete_ne by congruence. apply Hf, Hp.
Qed.

Lemma touches_only_keeps_records t w w' :
  In t managed_resources -> touches_only t w w' -> keeps_records w w'.
Proof.
  intros Ht (_ & Hd & _). split.
  - unfold clear_notification_time. rewrite Hd; [reflexivity|].
    intros H. symmetry in H. exact (key_for_not_clear_notification t H).
  - intros n. unfold get_resource_sha256sum. apply Hd.
    intros H. symmetry in H.
    exact (managed_resource_is_no_checksum_name t n Ht
             (proj1 (key_for_is_sha256sum_key t n) H)).
Qed.

Create HintDb touches.
#[local] Hint Resolve touches_only_refl touches_only_call
  touches_only_set_resource touches_only_render touches_only_update_grub
  touches_only_remove_file : touches.

(** X8. Every updater and every remover writes at most its own file and
    the change time of its own resource, and only adds to the calls made:
    all other files and entries of the store, and in particular the
    acknowledgment time and every checksum on record, are what they
    were. *)
Theorem updaters_touch_their_resource_only
    (render_template : string -> pydict ctxval -> string)
    (config_flags_parser : string -> pydict string)
    (read_string : string -> result ini)
    (m : machine) (cfg : charm_config) (w : world) :
  let only target w' := touches_only target w w' /\ keeps_records w w' in
  only GRUB_CONF (update_grub_file render_template config_flags_parser m cfg w)
  /\ (forall w',
        update_systemd_system_file render_template config_flags_parser
          read_string m cfg w = Ok w' ->
        only SYSTEMD_SYSTEM w')
  /\ only CPUFREQUTILS (update_cpufreq render_template m cfg w)
  /\ only IRQBALANCE_CONF (update_irqbalance render_template m cfg w)
  /\ only KERNEL (install_configured_kernel m cfg w)
  /\ only GRUB_CONF (remove_grub_configuration m cfg w)
  /\ only SYSTEMD_SYSTEM (remove_systemd_configuration render_template m w)
  /\ only CPUFREQUTILS (remove_cpufreq_configuration render_template m w)
  /\ only IRQBALANCE_CONF (remove_irqbalance_configuration render_template m w).
Proof.
  intros only.
  assert (Honly : forall t w', In t managed_resources ->
                    touches_only t w w' -> only t w').
  { intros t w' Ht H. split; [exact H|].
    exact (touches_only_keeps_records t w w' Ht H). }
  repeat split_and; try intros w' Hw'; apply Honly;
    try (unfold managed_resources; simpl; tauto).
  - unfold update_grub_file. auto with touches.
  - revert Hw'. unfold update_systemd_system_file.
    destruct (_systemd_update_available _ _ _ _) as [[|]|]; simpl;
      [intros [= <-]; auto with touches
      |intros [= <-]; auto with touches | discriminate].
  - unfold update_cpufreq.
    destruct (negb _); [auto with touches|].
    destruct (negb (is_container m)); [destruct (nonempty _)|];
      auto 6 with touches.
  - unfold update_irqbalance. auto with touches.
  - unfold install_configured_kernel.
    destruct (negb _); [auto with touches|].
    destruct (_is_kernel_already_running m cfg); auto 6 with touches.
  - unfold remove_grub_configuration.
    destruct (negb _); auto 6 with touches.
  - unfold remove_systemd_configuration. auto with touches.
  - unfold remove_cpufreq_configuration.
    destruct (negb (is_container m)); auto 6 with touches.
  - unfold remove_irqbalance_configuration. auto with touches.
Qed.

Lemma updaters_touch_their_resource_only_witness :
  exists w',
    update_systemd_system_file Sample.render Scenario.no_legacy_flags
      Sample.read_string Sample.host Sample.pinned Sample.fresh = Ok w'
    /\ files w' !! GRUB_CONF = files Sample.fresh !! GRUB_CONF
    /\ keeps_records Sample.fresh w'.
Proof.
  destruct (update_systemd_system_file Sample.render Scenario.no_legacy_flags
              Sample.read_string Sample.host Sample.pinned Sample.fresh)
    as [w'|e] eqn:Hcall.
  - exists w'. split; [reflexivity|].
    destruct (updaters_touch_their_resource_only Sample.render
                Scenario.no_legacy_flags Sample.read_string Sample.host
                Sample.pinned Sample.fresh) as (_ & Hsystemd & _).
    destruct (Hsystemd w' Hcall) as [(Hfiles & _) Hkeeps].
    split; [apply Hfiles; discriminate | exact Hkeeps].
  - exfalso. vm_compute in Hcall. discriminate Hcall.
Defined.

(** X9. In a container neither update-grub is run nor the ondemand service
    masked or unmasked, by any of the four methods that would do so on a
    host. *)
Theorem container_makes_no_host_call
    (render_template : string -> pydict ctxval -> string)
    (config_flags_parser : string -> pydict string)
    (m : machine) (cfg : charm_config) (w : world) :
  let quiet w' :=
    exists made, calls w' = (calls w ++ made)%list
                 /\ existsb host_call made = false in
  is_container m = true ->
  quiet (update_grub_file render_template config_flags_parser m cfg w)
  /\ quiet (remove_grub_configuration m cfg w)
  /\ quiet (update_cpufreq render_template m cfg w)
  /\ quiet (remove_cpufreq_configuration render_template m w).
Proof.
  intros quiet Hc. subst quiet. cbv beta.
  unfold update_grub_file, remove_grub_configuration, update_cpufreq,
    remove_cpufreq_configuration, _update_grub.
  rewrite Hc, andb_false_r. cbn [negb].
  repeat split_and.
  - eexists. split; [reflexivity|]. reflexivity.
  - destruct (path_exists w GRUB_CONF); cbn [negb].
    + exists []. split; [simpl; rewrite app_nil_r; reflexivity | reflexivity].
    + exists []. split; [rewrite app_nil_r; reflexivity | reflexivity].
  - destruct (_ || _); cbn [negb].
    + eexists. split; [simpl; rewrite <- app_assoc; reflexivity | reflexivity].
    + exists []. split; [rewrite app_nil_r; reflexivity | reflexivity].
  - eexists. split; [simpl; rewrite <- app_assoc; reflexivity | reflexivity].
Qed.

Lemma container_makes_no_host_call_witness :
  exists made,
    calls (update_cpufreq Sample.render Scenario.container Sample.pinned
             Sample.fresh)
    = (calls Sample.fresh ++ made)%list
    /\ existsb host_call made = false.
Proof.
  destruct (container_makes_no_host_call Sample.render Scenario.no_legacy_flags
              Scenario.container Sample.pinned Sample.fresh eq_refl)
    as (_ & _ & Hcpufreq & _).
  exact Hcpufreq.
Defined.

(** X10. [is_config_valid] and [update_cpufreq] agree on the governors: a
    configuration that is valid has a listed governor, a listed governor
    is rendered into the cpufrequtils file, recorded as a change and
    followed by a restart of the service as the last call, and any other
    governor leaves everything as it is. *)
Theorem valid_governor_is_applied
    (render_template : string -> pydict ctxval -> string)
    (m : machine) (cfg : charm_config) (w : world) :
  let w' := update_cpufreq render_template m cfg w in
  let listed := existsb (String.eqb (governor cfg))
                  [EmptyString; "powersave"; "performance"] in
  (forall resolved_cache_mode,
     is_config_valid cfg resolved_cache_mode = true -> listed = true)
  /\ (listed = true ->
      files w' !! CPUFREQUTILS
      = Some (render_template CPUFREQUTILS_TMPL
                [("governor", CStr (governor cfg))])
      /\ db w' !! key_for CPUFREQUTILS = Some (VFloat (clock m))
      /\ exists made,
           calls w' = (calls w ++ made ++ [ServiceRestart "cpufrequtils"])%list)
  /\ (listed = false -> w' = w).
Proof.
  intros w' listed. subst w' listed.
  assert (Hsame : existsb (String.eqb (governor cfg))
                    [EmptyString; "powersave"; "performance"]
                  = (String.eqb (governor cfg) "" || String.eqb (governor cfg) "performance"
                     || String.eqb (governor cfg) "powersave")).
  { cbn [existsb]. destruct (String.eqb (governor cfg) ""),
      (String.eqb (governor cfg) "powersave"),
      (String.eqb (governor cfg) "performance"); reflexivity. }
  split; [|split].
  - intros rcm. unfold is_config_valid. cbn [forallb fst snd].
    rewrite !andb_true_iff. tauto.
  - rewrite Hsame. unfold update_cpufreq. intros ->. cbn [negb].
    destruct (negb (is_container m)); [destruct (nonempty (governor cfg))|];
      (split; [apply lookup_insert_eq|split; [apply lookup_insert_eq|]]).
    + exists [RenderFile CPUFREQUTILS_TMPL CPUFREQUTILS
                (render_template CPUFREQUTILS_TMPL [("governor", CStr (governor cfg))]);
              SystemctlMask "ondemand"].
      simpl. rewrite <- !app_assoc. reflexivity.
    + exists [RenderFile CPUFREQUTILS_TMPL CPUFREQUTILS
                (render_template CPUFREQUTILS_TMPL [("governor", CStr (governor cfg))]);
              SystemctlUnmask "ondemand"].
      simpl. rewrite <- !app_assoc. reflexivity.
    + exists [RenderFile CPUFREQUTILS_TMPL CPUFREQUTILS
                (render_template CPUFREQUTILS_TMPL [("governor", CStr (governor cfg))])].
      simpl. rewrite <- !app_assoc. reflexivity.
  - rewrite Hsame. unfold update_cpufreq. intros ->. reflexivity.
Qed.

Lemma valid_governor_is_applied_witness :
  files (update_cpufreq Sample.render Sample.host Sample.pinned Sample.fresh)
    !! CPUFREQUTILS
  = Some (Sample.render CPUFREQUTILS_TMPL [("governor", CStr "performance")]).
Proof.
  destruct (valid_governor_is_applied Sample.render Sample.host Sample.pinned
              Sample.fresh) as (Hvalid & Happlied & _).
  destruct (Happlied (Hvalid EmptyString eq_refl)) as (Hfile & _).
  exact Hfile.
Defined.

(** ** The configuration read by the helper *)

(** X11. The deprecated pair reservation and cpu-range never overrides an
    option that is set, and stands in for at most one of isolcpus and
    cpu-affinity-range: where it replaces one, the other is the
    configured one. *)
Theorem deprecated_cpu_range_feeds_one_option (cfg : charm_config) :
  (cfg_isolcpus cfg <> EmptyString -> isolcpus cfg = cfg_isolcpus cfg)
  /\ (cfg_cpu_affinity_range cfg <> EmptyString ->
      cpu_affinity_range cfg = cfg_cpu_affinity_range cfg)
  /\ (isolcpus cfg <> cfg_isolcpus cfg ->
      reservation cfg = "isolcpus" /\ isolcpus cfg = cpu_range cfg
      /\ cpu_affinity_range cfg = cfg_cpu_affinity_range cfg)
  /\ (cpu_affinity_range cfg <> cfg_cpu_affinity_range cfg ->
      reservation cfg = "affinity" /\ cpu_affinity_range cfg = cpu_range cfg
      /\ isolcpus cfg = cfg_isolcpus cfg).
Proof.
  unfold isolcpus, cpu_affinity_range.
  destruct (String.eqb_spec (cfg_isolcpus cfg) EmptyString) as [Hi|Hi];
    destruct (String.eqb_spec (cfg_cpu_affinity_range cfg) EmptyString) as [Ha|Ha];
    destruct (String.eqb_spec (reservation cfg) "isolcpus") as [Hr|Hr];
    destruct (String.eqb_spec (reservation cfg) "affinity") as [Hr'|Hr'];
    try (rewrite Hr in Hr'; discriminate Hr');
    destruct (nonempty (cpu_range cfg)); cbn [andb];
    repeat split; try tauto; try congruence.
Qed.

Lemma deprecated_cpu_range_feeds_one_option_witness :
  reservation Scenario.legacy = "isolcpus"
  /\ isolcpus Scenario.legacy = "2-3"
  /\ cpu_affinity_range Scenario.legacy = EmptyString.
Proof.
  destruct (deprecated_cpu_range_feeds_one_option Scenario.legacy)
    as (_ & _ & Hisol & _).
  apply Hisol. discriminate.
Defined.

Lemma dict_get_set_eq {V : Type} (k : string) (v : V) (d : pydict V) :
  dict_get k (dict_set k v d) = Some v.
Proof.
  induction d as [|[k' v'] rest IH]; simpl.
  - rewrite String.eqb_refl. reflexivity.
  - destruct (String.eqb k k') eqn:Hk; simpl; rewrite ?Hk, ?String.eqb_refl;
      [reflexivity | exact IH].
Qed.

Lemma dict_get_set_ne {V : Type} (k k0 : string) (v : V) (d : pydict V) :
  String.eqb k k0 = false ->
  dict_get k (dict_set k0 v d) = dict_get k d.
Proof.
  intros Hne. induction d as [|[k' v'] rest IH]; simpl.
  - rewrite Hne. reflexivity.
  - destruct (String.eqb k0 k') eqn:Hk; simpl.
    + apply String.eqb_eq in Hk. subst k'. rewrite Hne. reflexivity.
    + rewrite IH. reflexivity.
Qed.

Lemma dict_get_set_if_ne (k k0 val : string) (d : pydict ctxval) :
  String.eqb k k0 = false ->
  dict_get k (set_if k0 val d) = dict_get k d.
Proof.
  intros Hne. unfold set_if. destruct (nonempty val); [|reflexivity].
  apply dict_get_set_ne, Hne.
Qed.

(** X12. The context of the grub template: [grub_default] is there exactly
    for a configured kernel that is not the running one, and names it;
    [grub_config_flags] is always there; [enable_pti] is there only with
    one of the values on and off. *)
Theorem grub_context_keys (config_flags_parser : string -> pydict string)
    (m : machine) (cfg : charm_config) :
  let context := _assemble_grub_context config_flags_parser m cfg in
  dict_get "grub_default" context
  = (if nonempty (kernel_version cfg)
        && negb (String.eqb (kernel_version cfg) (kernel_release m))
     then Some (CStr (GRUB_DEFAULT (kernel_version cfg))) else None)
  /\ (exists flags, dict_get "grub_config_flags" context = Some (CFlags flags))
  /\ (forall v, dict_get "enable_pti" context = Some v ->
        v = CStr (enable_pti cfg)
        /\ (enable_pti cfg = "on" \/ enable_pti cfg = "off")).
Proof.
  intros context. subst context.
  unfold _assemble_grub_context, _is_kernel_already_running.
  set (c5 := set_if "raid" _ _).
  set (c6 := if _ || _ then _ else c5).
  set (c7 := if enable_iommu cfg then _ else c6).
  set (c8 := if enable_tsx cfg then _ else c7).
  set (c9 := match grub_config_flags cfg with [] => _ | _ :: _ => _ end).
  assert (H5 : forall k, String.eqb k "isolcpus" = false ->
                 String.eqb k "hugepages" = false ->
                 String.eqb k "hugepagesz" = false ->
                 String.eqb k "default_hugepagesz" = false ->
                 String.eqb k "raid" = false -> dict_get k c5 = None).
  { intros k H1 H2 H3 H4 H5. subst c5.
    rewrite !dict_get_set_if_ne by assumption. reflexivity. }
  assert (H9flags : exists flags, dict_get "grub_config_flags" c9 = Some (CFlags flags)).
  { subst c9. destruct (grub_config_flags cfg); eexists; apply dict_get_set_eq. }
  assert (H8 : forall k, String.eqb k "iommu" = false -> String.eqb k "tsx" = false ->
                 dict_get k c8 = dict_get k c6).
  { intros k H1 H2. subst c8 c7.
    destruct (enable_tsx cfg), (enable_iommu cfg);
      rewrite ?dict_get_set_ne by assumption; reflexivity. }
  assert (H9 : forall k, String.eqb k "grub_config_flags" = false ->
                 dict_get k c9 = dict_get k c8).
  { intros k Hk. subst c9. destruct (grub_config_flags cfg);
      apply dict_get_set_ne, Hk. }
  split; [|split].
  - destruct (nonempty (kernel_version cfg) && negb _).
    + apply dict_get_set_eq.
    + rewrite H9, H8 by reflexivity. subst c6.
      destruct (_ || _); rewrite ?dict_get_set_ne by reflexivity;
        apply H5; reflexivity.
  - destruct (nonempty (kernel_version cfg) && negb _);
      rewrite ?dict_get_set_ne by reflexivity; exact H9flags.
  - intros v.
    assert (Hpti : dict_get "enable_pti" c9 = Some v ->
                   v = CStr (enable_pti cfg)
                   /\ (enable_pti cfg = "on" \/ enable_pti cfg = "off")).
    { rewrite H9, H8 by reflexivity. subst c6.
      destruct (String.eqb_spec (enable_pti cfg) "on") as [Hon|_]; cbn [orb].
      - rewrite dict_get_set_eq. intros [= <-]. tauto.
      - destruct (String.eqb_spec (enable_pti cfg) "off") as [Hoff|_].
        + rewrite dict_get_set_eq. intros [= <-]. tauto.
        + rewrite H5 by reflexivity. discriminate. }
    destruct (nonempty (kernel_version cfg) && negb _);
      rewrite ?dict_get_set_ne by reflexivity; exact Hpti.
Qed.

Lemma grub_context_keys_witness :
  CStr "on" = CStr (enable_pti Scenario.legacy)
  /\ (enable_pti Scenario.legacy = "on" \/ enable_pti Scenario.legacy = "off").
Proof.
  destruct (grub_context_keys Scenario.no_legacy_flags Sample.host
              Scenario.legacy) as (_ & _ & Hpti).
  apply Hpti. reflexivity.
Defined.

(** X13. After an acknowledgment, [check_grub_reboot] still runs
    [check_update_grub], and answers [False] whatever was found when the
    grub file was last changed before the acknowledgment; otherwise the
    answer is the one found. *)
Theorem check_grub_reboot_after_acknowledgment
    (check_update_grub : world -> result (world * (bool * string)))
    (m : machine) (w : world) (t : Z) :
  let w0 := clear_notification m w in
  (datetime_min <= clock m <= datetime_max)%Z ->
  clock m <> 0%Z ->
  get_resource_changed_timestamp w GRUB_CONF = Ok t ->
  check_grub_reboot check_update_grub w0
  = (r <- check_update_grub w0 ;;
     Ok (fst r, if (t <? clock m)%Z then false else fst (snd r))).
Proof.
  intros w0 Hc Hnz Ht. unfold check_grub_reboot.
  assert (Hack : clear_notification_time w0 = Ok (Some (clock m))).
  { subst w0. unfold clear_notification_time, clear_notification. simpl.
    rewrite lookup_insert_eq. simpl.
    destruct (Z.eqb_spec (clock m) 0) as [H|_]; [contradiction|]. simpl.
    rewrite (mk_datetime_in_range _ Hc). reflexivity. }
  assert (Hts : get_resource_changed_timestamp w0 GRUB_CONF = Ok t).
  { rewrite <- Ht. subst w0. unfold get_resource_changed_timestamp. simpl.
    rewrite lookup_insert_ne; [reflexivity|].
    intros H. symmetry in H. exact (key_for_not_clear_notification _ H). }
  rewrite Hack, Hts. cbn [bind].
  destruct (check_update_grub w0) as [r|e]; cbn [bind]; [|reflexivity].
  destruct (t <? clock m)%Z; reflexivity.
Qed.

Lemma check_grub_reboot_after_acknowledgment_witness :
  check_grub_reboot Scenario.update_found
    (clear_notification Sample.host Sample.drifted)
  = Ok (clear_notification Sample.host Sample.drifted, false).
Proof.
  rewrite (check_grub_reboot_after_acknowledgment Scenario.update_found
             Sample.host Sample.drifted 2000).
  - reflexivity.
  - in_dates.
  - discriminate.
  - reflexivity.
Defined.

(** ** The text transforms *)

Lemma replace_from_absent (old new s : string) :
  Str.contains old s = false -> Str.replace_from old new O s = s.
Proof.
  induction s as [|c t IH]; intros H; [reflexivity|].
  cbn [Str.contains] in H. apply orb_false_iff in H. destruct H as [Hp Ht].
  cbn [Str.replace_from]. rewrite Hp, (IH Ht). reflexivity.
Qed.

Lemma prefix_app_l (p u s : string) :
  prefix (p ++ u) s = true -> prefix p s = true.
Proof.
  revert s. induction p as [|a p IH]; intros s; [intros _; apply prefix_nil|].
  destruct s as [|b s]; simpl; [discriminate|].
  destruct (ascii_dec a b); [apply IH | discriminate].
Qed.

Lemma contains_app_l (p u s : string) :
  Str.contains (p ++ u) s = true -> Str.contains p s = true.
Proof.
  induction s as [|c t IH]; cbn [Str.contains]; intros H;
    apply orb_true_iff in H; destruct H as [H|H].
  - rewrite (prefix_app_l _ _ _ H). reflexivity.
  - discriminate.
  - rewrite (prefix_app_l _ _ _ H). reflexivity.
  - rewrite (IH H). apply orb_true_r.
Qed.

(** X14. A text in which [root=UUID=] does not occur is returned as it is,
    whatever the mapping. *)
Theorem text_without_root_uuid_is_kept (content : string)
    (blkid_mapping : pydict string) :
  Str.contains "root=UUID=" content = false ->
  _replace_uuids_with_labels content blkid_mapping = content.
Proof.
  intros H. induction blkid_mapping as [|[uuid label] rest IH]; [reflexivity|].
  cbn [_replace_uuids_with_labels].
  change ("root=UUID=" ++ uuid) with (String "r" ("oot=UUID=" ++ uuid)).
  cbn [Str.replace].
  rewrite replace_from_absent; [exact IH|].
  destruct (Str.contains (String "r" ("oot=UUID=" ++ uuid)) content) eqn:Hc;
    [|reflexivity].
  change (String "r" ("oot=UUID=" ++ uuid)) with ("root=UUID=" ++ uuid) in Hc.
  apply contains_app_l in Hc. congruence.
Qed.

Lemma text_without_root_uuid_is_kept_witness :
  _replace_uuids_with_labels "linux /vmlinuz root=LABEL=cloudimg-rootfs ro"
    [("12ab-34cd", "mylabel")]
  = "linux /vmlinuz root=LABEL=cloudimg-rootfs ro".
Proof.
  apply (text_without_root_uuid_is_kept
           "linux /vmlinuz root=LABEL=cloudimg-rootfs ro"
           [("12ab-34cd", "mylabel")]).
  reflexivity.
Defined.

(** [= in s], character by character. *)
Lemma contains_eq_cons (c : ascii) (t : string) :
  Str.contains "=" (String c t)
  = Str.eqb_char c "="%char || Str.contains "=" t.
Proof.
  cbn [Str.contains]. f_equal. unfold Str.eqb_char.
  change (prefix "=" (String c t))
    with (if ascii_dec "=" c then prefix EmptyString t else false).
  destruct (ascii_dec "=" c) as [<-|Hne].
  - rewrite prefix_nil. reflexivity.
  - symmetry. apply Ascii.eqb_neq. congruence.
Qed.

Lemma contains_eq_app (a b : string) :
  Str.contains "=" (a ++ b) = Str.contains "=" a || Str.contains "=" b.
Proof.
  induction a as [|c a IH]; [reflexivity|].
  change (String c a ++ b) with (String c (a ++ b)).
  rewrite !contains_eq_cons, IH, orb_assoc. reflexivity.
Qed.

Lemma re_split_commas_without_eq (s cur p : string) :
  Str.contains "=" cur = false -> Str.contains "=" s = false ->
  In p (re_split_commas cur s) -> Str.contains "=" p = false.
Proof.
  revert cur. induction s as [|c t IH]; intros cur Hcur Hs; simpl.
  - intros [<- | []]. exact Hcur.
  - rewrite contains_eq_cons in Hs. apply orb_false_iff in Hs.
    destruct Hs as [Hc Ht].
    destruct (Str.eqb_char c "," && _).
    + intros [<- | Hp]; [exact Hcur | exact (IH EmptyString eq_refl Ht Hp)].
    + apply IH; [|exact Ht].
      rewrite contains_eq_app, Hcur, contains_eq_cons, Hc. reflexivity.
Qed.

Lemma parse_pairs_without_eq (pieces : list string) (d : pydict string) :
  (forall p, In p pieces -> Str.contains "=" p = false) ->
  parse_pairs pieces d = d.
Proof.
  induction pieces as [|p rest IH]; intros H; [reflexivity|].
  cbn [parse_pairs]. rewrite (H p (or_introl eq_refl)).
  apply IH. intros q Hq. apply H. right. exact Hq.
Qed.

(** X15. A text without an equals sign parses to the empty dictionary,
    whatever its commas and quotes: options given without a value are
    dropped. *)
Theorem flags_without_equals_are_dropped (config_flags : string) :
  Str.contains "=" config_flags = false ->
  parse_config_flags config_flags = [].
Proof.
  intros H. unfold parse_config_flags. apply parse_pairs_without_eq.
  intros p. apply re_split_commas_without_eq; [reflexivity | exact H].
Qed.

Lemma flags_without_equals_are_dropped_witness :
  parse_config_flags "quiet splash,nomodeset" = [].
Proof.
  apply (flags_without_equals_are_dropped "quiet splash,nomodeset").
  reflexivity.
Defined.

Lemma string_app_assoc (a b c : string) : (a ++ b) ++ c = a ++ b ++ c.
Proof.
  induction a as [|x a IH]; [reflexivity|].
  change (String x ((a ++ b) ++ c) = String x (a ++ b ++ c)). f_equal. exact IH.
Qed.

Lemma string_app_nil_r (a : string) : a ++ EmptyString = a.
Proof.
  induction a as [|x a IH]; [reflexivity|].
  change (String x (a ++ EmptyString) = String x a). f_equal. exact IH.
Qed.

Lemma count_char_app (x : ascii) (a b : string) :
  Str.count_char x (a ++ b) = (Str.count_char x a + Str.count_char x b)%nat.
Proof. induction a as [|c a IH]; simpl; [reflexivity | rewrite IH; lia]. Qed.

Lemma count_char_0_cons (x c : ascii) (t : string) :
  Str.count_char x (String c t) = O ->
  Str.eqb_char c x = false /\ Str.count_char x t = O.
Proof.
  cbn [Str.count_char]. destruct (Str.eqb_char c x); simpl; [discriminate|].
  intros H. split; [reflexivity | exact H].
Qed.

(** A piece without a comma is not cut. *)
Lemma re_split_commas_piece (piece cur : string) :
  Str.count_char "," piece = O ->
  re_split_commas cur piece = [cur ++ piece].
Proof.
  revert cur. induction piece as [|c t IH]; intros cur H.
  - simpl. rewrite string_app_nil_r. reflexivity.
  - apply count_char_0_cons in H. destruct H as [Hc Ht].
    cbn [re_split_commas]. rewrite Hc. cbn [andb].
    rewrite (IH _ Ht), string_app_assoc. reflexivity.
Qed.

(** The text is cut at a comma that has no double quote after it. *)
Lemma re_split_commas_cut (piece rest cur : string) :
  Str.count_char "," piece = O ->
  Str.count_char Str.dquote rest = O ->
  re_split_commas cur (piece ++ "," ++ rest)
  = (cur ++ piece) :: re_split_commas EmptyString rest.
Proof.
  revert cur. induction piece as [|c t IH]; intros cur H Hq.
  - change (EmptyString ++ "," ++ rest) with (String "," rest).
    cbn [re_split_commas]. rewrite Hq. simpl.
    rewrite string_app_nil_r. reflexivity.
  - apply count_char_0_cons in H. destruct H as [Hc Ht].
    change (String c t ++ "," ++ rest) with (String c (t ++ "," ++ rest)).
    cbn [re_split_commas]. rewrite Hc. cbn [andb].
    rewrite (IH _ Ht Hq), string_app_assoc. reflexivity.
Qed.

Lemma join_flags_cons (kv kv2 : string * string) rest :
  join_flags (kv :: kv2 :: rest)
  = piece_of kv ++ "," ++ join_flags (kv2 :: rest).
Proof.
  destruct kv as [k v]. unfold piece_of. cbn [join_flags fst snd].
  destruct kv2 as [k2 v2]. rewrite !string_app_assoc. reflexivity.
Qed.

Lemma piece_of_no_comma kv :
  plain_pair kv -> Str.count_char "," (piece_of kv) = O.
Proof.
  intros (H1 & _ & _ & H4 & _). unfold piece_of.
  rewrite !count_char_app, H1, H4. reflexivity.
Qed.

Lemma join_flags_no_quote (pairs : list (string * string)) :
  (forall kv, In kv pairs -> plain_pair kv) ->
  Str.count_char Str.dquote (join_flags pairs) = O.
Proof.
  induction pairs as [|kv rest IH]; intros H; [reflexivity|].
  assert (Hp : Str.count_char Str.dquote (piece_of kv) = O).
  { destruct (H kv (or_introl eq_refl)) as (_ & _ & H3 & _ & H5).
    unfold piece_of. rewrite !count_char_app, H3, H5. reflexivity. }
  destruct rest as [|kv2 rest].
  - destruct kv as [k v]. exact Hp.
  - rewrite join_flags_cons, !count_char_app, Hp, IH; [reflexivity|].
    intros q Hq. apply H. right. exact Hq.
Qed.

Lemma re_split_commas_join_flags (kv : string * string) rest :
  (forall q, In q (kv :: rest) -> plain_pair q) ->
  re_split_commas EmptyString (join_flags (kv :: rest))
  = map piece_of (kv :: rest).
Proof.
  revert kv. induction rest as [|kv2 rest IH]; intros kv H.
  - destruct kv as [k v].
    apply (re_split_commas_piece (piece_of (k, v)) EmptyString).
    apply piece_of_no_comma, H. left. reflexivity.
  - rewrite join_flags_cons, re_split_commas_cut.
    + rewrite IH by (intros q Hq; apply H; right; exact Hq). reflexivity.
    + apply piece_of_no_comma, H. left. reflexivity.
    + apply join_flags_no_quote. intros q Hq. apply H. right. exact Hq.
Qed.

Lemma split_once_piece (k v : string) :
  Str.count_char "=" k = O ->
  Str.split_once "=" (k ++ "=" ++ v) = (k, v).
Proof.
  induction k as [|c k IH]; intros H; [reflexivity|].
  apply count_char_0_cons in H. destruct H as [Hc Hk].
  change (String c k ++ "=" ++ v) with (String c (k ++ "=" ++ v)).
  cbn [Str.split_once]. rewrite Hc, (IH Hk). reflexivity.
Qed.

Lemma piece_of_contains_eq kv : Str.contains "=" (piece_of kv) = true.
Proof.
  unfold piece_of. rewrite !contains_eq_app.
  change (Str.contains "=" "=") with true. apply orb_true_iff. right. reflexivity.
Qed.

Lemma rejoin_value_before_pair (value : string) (rest : list (string * string)) :
  rejoin_value value (map piece_of rest) = value.
Proof.
  destruct rest as [|kv rest]; [reflexivity|].
  cbn [map rejoin_value]. rewrite piece_of_contains_eq. reflexivity.
Qed.

Lemma parse_pairs_pieces (pairs : list (string * string)) (d : pydict string) :
  (forall kv, In kv pairs -> plain_pair kv) ->
  parse_pairs (map piece_of pairs) d = assign_stripped pairs d.
Proof.
  revert d. induction pairs as [|kv rest IH]; intros d H; [reflexivity|].
  cbn [map parse_pairs]. rewrite piece_of_contains_eq.
  destruct (H kv (or_introl eq_refl)) as (_ & Hk & _).
  unfold piece_of at 1. rewrite (split_once_piece _ _ Hk).
  rewrite rejoin_value_before_pair.
  rewrite IH by (intros q Hq; apply H; right; exact Hq). reflexivity.
Qed.

(** X16. The first documented format in general: for keys without comma,
    equals sign and double quote and values without comma and double
    quote, the text [k1=v1,k2=v2,...] parses to the dictionary that
    assigns each stripped value to its stripped key, in order, a later
    pair replacing an earlier one with the same key. *)
Theorem plain_pairs_are_parsed (pairs : list (string * string)) :
  (forall k v, In (k, v) pairs ->
     Str.count_char "," k = O /\ Str.count_char "=" k = O
     /\ Str.count_char Str.dquote k = O
     /\ Str.count_char "," v = O /\ Str.count_char Str.dquote v = O) ->
  parse_config_flags (join_flags pairs) = assign_stripped pairs [].
Proof.
  intros H.
  assert (Hplain : forall kv, In kv pairs -> plain_pair kv).
  { intros [k v] Hkv. exact (H k v Hkv). }
  unfold parse_config_flags. destruct pairs as [|kv rest]; [reflexivity|].
  rewrite (re_split_commas_join_flags kv rest Hplain).
  apply parse_pairs_pieces, Hplain.
Qed.

Lemma plain_pairs_are_parsed_witness :
  parse_config_flags "key1=val1, key2=val2"
  = [("key1", "val1"); ("key2", "val2")].
Proof.
  apply (plain_pairs_are_parsed [("key1", "val1"); (" key2", "val2")]).
  intros k v [[= <- <-] | [[= <- <-] | []]]; repeat split; reflexivity.
Defined.

(** ** After a reboot *)

Lemma checksum_changed_settled (w : world) (n content : string) :
  files w !! n = Some content ->
  db w !! sha256sum_key n = Some (VStr (SHA256.hexdigest content)) ->
  checksum_changed w n = Ok false.
Proof.
  intros Hc Hrec.
  rewrite checksum_changed_readable by (intros _; exists content; exact Hc).
  f_equal. apply not_true_is_false.
  rewrite (csum_differs_digest w n content Hc).
  intros H. apply H. exact Hrec.
Qed.

Lemma nothing_needs_acknowledgment (w : world) (cutoff : Z)
    (names : list string) :
  (forall n, In n names -> (changed_at w n <= cutoff)%Z) ->
  elements (NeedsAcknowledgment w cutoff names) = [].
Proof.
  intros Hold.
  destruct (elements (NeedsAcknowledgment w cutoff names)) as [|n rest] eqn:Hel;
    [reflexivity|]. exfalso.
  assert (Hn : In n (elements (NeedsAcknowledgment w cutoff names)))
    by (rewrite Hel; left; reflexivity).
  apply In_elements_NeedsAcknowledgment in Hn. destruct Hn as (Hn & Hlt & _).
  specialize (Hold n Hn). lia.
Qed.

(** X17. After a reboot, that is when no listed resource has a change
    recorded after the boot, the query returns the empty list, and it
    leaves the checksum of every listed file that exists on record, so that
    [checksum_changed] answers [False] for it. *)
Theorem reboot_clears_report (m : machine) (w : world)
    (names : list string) (boot : Z) (ack : option Z) :
  readable w names ->
  boot_time m = Ok boot ->
  clear_notification_time w = Ok ack ->
  (forall n, In n names -> (changed_at w n <= boot)%Z) ->
  exists w',
    resources_changed_since_boot m w names = Ok (w', [])
    /\ forall n, In n names -> path_exists w n = true ->
         checksum_changed w' n = Ok false.
Proof.
  intros Hread Hboot Hack Hold.
  destruct (resources_changed_since_boot_readable m w names boot ack
              Hboot Hack Hread) as (w' & Hup & Hres).
  assert (Hcut : (boot <= EffectiveCutoff boot ack)%Z).
  { destruct ack; simpl; lia. }
  exists w'. split.
  - rewrite Hres, nothing_needs_acknowledgment; [reflexivity|].
    intros n Hn. specialize (Hold n Hn). lia.
  - intros n Hn Hex. apply path_exists_true in Hex. destruct Hex as [content Hc].
    destruct (update_resource_checksums_total
                (elements (CsumOnlyChanged w (EffectiveCutoff boot ack) names)) w)
      as (w2 & Hw2 & Hfiles & _).
    rewrite Hup in Hw2. injection Hw2 as <-.
    apply (checksum_changed_settled w' n content); [rewrite Hfiles; exact Hc|].
    apply (update_resource_checksums_stored _ _ _ _ _ Hup Hc).
    destruct (csum_differs w n) eqn:Hdiff.
    + left. rewrite <- list_elem_of_In, elem_of_elements.
      apply elem_of_CsumOnlyChanged. specialize (Hold n Hn).
      repeat split; [exact Hn | exact Hdiff | lia].
    + right. apply not_true_iff_false in Hdiff.
      rewrite (csum_differs_digest w n content Hc) in Hdiff.
      unfold get_resource_sha256sum in Hdiff.
      destruct (decide (db w !! sha256sum_key n
                        = Some (VStr (SHA256.hexdigest content)))) as [H|H];
        [exact H | contradiction].
Qed.

Lemma reboot_clears_report_witness :
  exists w',
    resources_changed_since_boot Scenario.rebooted Sample.drifted Sample.names
    = Ok (w', [])
    /\ checksum_changed w' GRUB_CONF = Ok false.
Proof.
  destruct (reboot_clears_report Scenario.rebooted Sample.drifted Sample.names
              8000 None) as (w' & Hcall & Hsettled).
  - exact drifted_readable.
  - reflexivity.
  - reflexivity.
  - intros n [<- | [<- | [<- | []]]]; vm_compute; discriminate.
  - exists w'. split; [exact Hcall|].
    apply Hsettled; [right; left; reflexivity | vm_compute; reflexivity].
Defined.
